(** * The Blofin futures synchronizer ([scraper_root/scraper/blofinfutures.py])

    A shallow embedding of one polling cycle of each sync loop of
    [BlofinFutures], and of the symbol normalizer, together with the
    properties the specification states about them.

    Python values decoded from the exchange's JSON are kept dynamically typed
    ([pyval]); a Python [float] is an IEEE binary64 number, here Rocq's
    primitive [float]; an exception is the [Raise] branch of [result].

    A cycle is the body of a loop's [while True], as a function of what the
    exchange client returns (or raises) in it.  Its result is what the cycle
    hands to the repository, or the exception that the loop's [except]
    catches, together with the state the cycle leaves behind: the shared
    list [activesymbols] for Position Sync, the cursor [last_synced_id] for
    Trade Sync.  The calls of the repository are taken not to raise; threads,
    [time.sleep] and the log lines are left out. *)

From Stdlib Require Import ZArith List String Ascii Bool Lia Floats.
Import ListNotations.

Local Open Scope string_scope.
#[local] Set Warnings "-register-all".
(* A decimal literal such as 0.002 denotes the nearest binary64 number, as it
   does in Python. *)
#[local] Set Warnings "-inexact-float".

(** ** Python values and exceptions *)

(** What [json] decoding yields: [None], booleans, integers, floats, strings,
    lists and dicts.  A dict is its item list; a Python dict holds a key once,
    and lookup takes the first binding. *)
Inductive pyval : Type :=
| PNone
| PBool (b : bool)
| PInt (z : Z)
| PFloat (f : float)
| PStr (s : string)
| PList (l : list pyval)
| PDict (d : list (string * pyval)).

Inductive exn : Type :=
| TypeError
| ValueError
| AttributeError
| OverflowError
| KeyError
| IndexError
| GatewayError.

Inductive result (A : Type) : Type :=
| Ok (a : A)
| Raise (e : exn).
Arguments Ok {A} a.
Arguments Raise {A} e.

Definition bind {A B : Type} (r : result A) (k : A -> result B) : result B :=
  match r with
  | Ok a => k a
  | Raise e => Raise e
  end.

Declare Scope py_scope.
Delimit Scope py_scope with py.
Notation "x <- c ;; k" := (bind c (fun x => k))
  (at level 61, c at next level, right associativity) : py_scope.
Local Open Scope py_scope.

(** ** String methods *)

Definition hyphen : ascii := "-"%char.

(** [s.replace('-', '')] *)
Fixpoint remove_hyphens (s : string) : string :=
  match s with
  | EmptyString => EmptyString
  | String c t =>
      if Ascii.eqb c hyphen then remove_hyphens t else String c (remove_hyphens t)
  end.

(** [s.endswith(suffix)] *)
Definition endswith (s suffix : string) : bool :=
  let n := String.length s in
  let m := String.length suffix in
  (m <=? n)%nat && String.eqb (substring (n - m) m s) suffix.

(** [s[:-k]] *)
Definition drop_last (k : nat) (s : string) : string :=
  substring 0 (String.length s - k) s.

(** Upper-casing of ASCII text: the letters a-z go to A-Z and every other
    character stays.  This is what [s.upper()] gives on a string of ASCII
    characters only; on other characters Python follows Unicode's case
    mapping, which is not defined here (see [str_upper] below). *)
Definition ascii_upper_char (c : ascii) : ascii :=
  let n := nat_of_ascii c in
  if ((97 <=? n) && (n <=? 122))%nat then ascii_of_nat (n - 32) else c.

Fixpoint ascii_upper (s : string) : string :=
  match s with
  | EmptyString => EmptyString
  | String c t => String (ascii_upper_char c) (ascii_upper t)
  end.

(** A string of ASCII characters only. *)
Fixpoint is_ascii (s : string) : bool :=
  match s with
  | EmptyString => true
  | String c t => (nat_of_ascii c <? 128)%nat && is_ascii t
  end.

(** ** Builtins on dynamically typed values *)

(** Truth value of an object, as [if v:] tests it. *)
Definition truthy (v : pyval) : bool :=
  match v with
  | PNone => false
  | PBool b => b
  | PInt z => negb (z =? 0)%Z
  | PFloat f => negb (f =? 0)%float
  | PStr s => negb (String.eqb s "")
  | PList l => match l with [] => false | _ => true end
  | PDict d => match d with [] => false | _ => true end
  end.

(** [v == s] for a string literal [s]. *)
Definition py_eq_str (v : pyval) (s : string) : bool :=
  match v with
  | PStr t => String.eqb t s
  | _ => false
  end.

Fixpoint lookup (k : string) (d : list (string * pyval)) : option pyval :=
  match d with
  | [] => None
  | (k', v) :: t => if String.eqb k' k then Some v else lookup k t
  end.

(** [d.get(k, default)] on the items of a dict. *)
Definition dict_get (d : list (string * pyval)) (k : string) (default : pyval)
  : pyval :=
  match lookup k d with
  | Some x => x
  | None => default
  end.

(** [v.get(k, default)]: only a dict has the method. *)
Definition py_get (v : pyval) (k : string) (default : pyval) : result pyval :=
  match v with
  | PDict d => Ok (dict_get d k default)
  | _ => Raise AttributeError
  end.

(** [k in v] for a string [k]. *)
Definition py_contains (k : string) (v : pyval) : result bool :=
  match v with
  | PDict d => Ok (match lookup k d with Some _ => true | None => false end)
  | PList l => Ok (existsb (fun x => py_eq_str x k) l)
  | PStr s => Ok (match index 0 k s with Some _ => true | None => false end)
  | _ => Raise TypeError
  end.

(** [v[k]] for a string [k]. *)
Definition py_getitem (v : pyval) (k : string) : result pyval :=
  match v with
  | PDict d => match lookup k d with Some x => Ok x | None => Raise KeyError end
  | _ => Raise TypeError
  end.

(** The items [for x in v] runs over. *)
Definition py_iter (v : pyval) : result (list pyval) :=
  match v with
  | PList l => Ok l
  | PDict d => Ok (map (fun kv => PStr (fst kv)) d)
  | PStr s => Ok (map (fun c => PStr (String c EmptyString)) (list_ascii_of_string s))
  | _ => Raise TypeError
  end.

(** [len(v)] *)
Definition py_len (v : pyval) : result nat :=
  match v with
  | PList l => Ok (List.length l)
  | PDict d => Ok (List.length d)
  | PStr s => Ok (String.length s)
  | _ => Raise TypeError
  end.

(** [v[0]] *)
Definition py_first (v : pyval) : result pyval :=
  match v with
  | PList (x :: _) => Ok x
  | PList [] => Raise IndexError
  | PStr (String c _) => Ok (PStr (String c EmptyString))
  | PStr EmptyString => Raise IndexError
  | PDict _ => Raise KeyError
  | _ => Raise TypeError
  end.

(** [v.replace('-', '')]: only a string has the method. *)
Definition py_remove_hyphens (v : pyval) : result string :=
  match v with
  | PStr s => Ok (remove_hyphens s)
  | _ => Raise AttributeError
  end.

(** [float(z)] for an integer: the nearest binary64 number, [OverflowError]
    beyond the finite range. *)
Definition float_of_Z (z : Z) : result float :=
  let f := SF2Prim (binary_normalize prec emax z 0 false) in
  if is_infinity f then Raise OverflowError else Ok f.

(** [int(f)] for a float: truncation towards zero. *)
Definition Z_of_float (f : float) : result Z :=
  match Prim2SF f with
  | S754_zero _ => Ok 0%Z
  | S754_infinity _ => Raise OverflowError
  | S754_nan => Raise ValueError
  | S754_finite s m e =>
      let a := Z.shiftl (Z.pos m) e in
      Ok (if s then Z.opp a else a)
  end.

Section Builtins.

(** Python's parsers of numerals, [float(s)] and [int(s)] for a string [s];
    [None] where they raise [ValueError]. *)
Variable float_of_str : string -> option float.
Variable int_of_str : string -> option Z.

(** Python's [str.upper], which follows Unicode's case mapping. *)
Variable str_upper : string -> string.

(** [float(v)] *)
Definition py_float (v : pyval) : result float :=
  match v with
  | PFloat f => Ok f
  | PInt z => float_of_Z z
  | PBool b => Ok (if b then 1%float else 0%float)
  | PStr s => match float_of_str s with Some f => Ok f | None => Raise ValueError end
  | _ => Raise TypeError
  end.

(** [int(v)] *)
Definition py_int (v : pyval) : result Z :=
  match v with
  | PInt z => Ok z
  | PBool b => Ok (if b then 1%Z else 0%Z)
  | PFloat f => Z_of_float f
  | PStr s => match int_of_str s with Some z => Ok z | None => Raise ValueError end
  | _ => Raise TypeError
  end.

(** [v.upper()]: only a string has the method. *)
Definition py_upper (v : pyval) : result string :=
  match v with
  | PStr s => Ok (str_upper s)
  | _ => Raise AttributeError
  end.

End Builtins.

(** ** Symbol normalizer *)

(** [BlofinFutures._to_blofin_symbol]: [BTCUSDT] to [BTC-USDT]. *)
Definition _to_blofin_symbol (symbol : string) : string :=
  if endswith symbol "USDT" then
    let base := drop_last 4 symbol in
    base ++ "-USDT"
  else if endswith symbol "USDC" then
    let base := drop_last 4 symbol in
    base ++ "-USDC"
  else symbol.

(** The converse direction, [inst_id.replace('-', '')], is [remove_hyphens]. *)

(** ** Records handed to the repository *)

(** Modelled from the spec: the record classes of
    [scraper_root.scraper.data_classes], which this module imports and whose
    source is not part of it.  Each is a plain record of the fields the
    synchronizer sets, built without validation. *)
Module AssetBalance.
Record t : Type := mk {
  asset : pyval;
  balance : float;
  unrealizedProfit : float }.
End AssetBalance.

Module Balance.
Record t : Type := mk {
  totalBalance : float;
  totalUnrealizedProfit : float;
  assets : list AssetBalance.t }.
End Balance.

Module Position.
Record t : Type := mk {
  symbol : string;
  entry_price : float;
  position_size : float;
  side : string;
  unrealizedProfit : float;
  initial_margin : float;
  market_price : float }.
End Position.

Module Order.
Record t : Type := mk {
  symbol : string;
  price : float;
  quantity : float;
  side : string;
  position_side : string;
  type : string }.
End Order.

Module Tick.
Record t : Type := mk {
  symbol : string;
  price : float;
  qty : float;
  timestamp : Z }.
End Tick.

Module Income.
Record t : Type := mk {
  symbol : string;
  asset : string;
  type : string;
  income : float;
  timestamp : Z;
  transaction_id : pyval }.
End Income.

(** The fields of a [BlofinFutures] object that the sync loops use:
    the configured symbols and the shared list of active symbols. *)
Record BlofinFutures : Type := {
  symbols : list string;
  activesymbols : list pyval }.

(** ** Loops *)

(** [for row in rows: body], the [i]-th pass being handed its index.  A pass
    returns the variables as it leaves them and the exception it raised, if
    any; what was assigned before a raise stays assigned. *)
Fixpoint for_each {S : Type} (body : nat -> pyval -> S -> S * option exn)
    (rows : list pyval) (i : nat) (s : S) : S * option exn :=
  match rows with
  | [] => (s, None)
  | row :: rest =>
      match body i row s with
      | (s', None) => for_each body rest (Datatypes.S i) s'
      | (s', Some e) => (s', Some e)
      end
  end.

(** A pass that assigns only after everything that can raise. *)
Definition commit {S : Type} (r : result S) (s : S) : S * option exn :=
  match r with
  | Ok s' => (s', None)
  | Raise e => (s, Some e)
  end.

(** [resp and 'data' in resp] *)
Definition has_data (resp : pyval) : result bool :=
  if truthy resp then py_contains "data" resp else Ok false.

(** The rows [for row in resp['data']] runs over. *)
Definition data_rows (resp : pyval) : result (list pyval) :=
  d <- py_getitem resp "data" ;; py_iter d.

(** The rows a loop guarded by [if resp and 'data' in resp] runs over: none
    when the guard fails. *)
Definition response_rows (resp : pyval) : result (list pyval) :=
  d <- has_data resp ;;
  if d then data_rows resp else Ok [].

(** ** The sync loops, one cycle each *)

Section Sync.

Variable float_of_str : string -> option float.
Variable int_of_str : string -> option Z.

(** [list(set(xs))] for hashable items: the language leaves the order of
    iteration over a set open. *)
Variable list_of_set : list pyval -> list pyval.

(** Python's [str.upper]. *)
Variable str_upper : string -> string.

Local Abbreviation float_ := (py_float float_of_str).
Local Abbreviation int_ := (py_int int_of_str).

(** *** [sync_account] *)

(** One pass of [for asset in assets_data], over the variables
    [(total_balance, asset_balances)]. *)
Definition account_asset (asset : pyval) (s : float * list AssetBalance.t)
  : result (float * list AssetBalance.t) :=
  currency <- py_get asset "currency" (PStr "USDT") ;;
  b <- py_get asset "balance" (PInt 0) ;;
  balance_val <- float_ b ;;
  a <- py_get asset "available" (PInt 0) ;;
  available <- float_ a ;;
  if py_eq_str currency "USDT" then Ok (balance_val, snd s)
  else Ok (fst s, (snd s ++ [AssetBalance.mk currency balance_val 0%float])%list).

(** One pass of [for pos in positions_resp['data']], over [total_upnl]. *)
Definition upnl_row (pos : pyval) (total_upnl : float) : result float :=
  u <- py_get pos "unrealizedPnl" (PInt 0) ;;
  upnl <- float_ u ;;
  Ok (total_upnl + upnl)%float.

(** The inner [try: ... except Exception: pass]: whatever was summed before
    a raise is kept. *)
Definition positions_upnl (get_positions : result pyval) (total_upnl : float)
  : float :=
  match get_positions with
  | Raise _ => total_upnl
  | Ok positions_resp =>
      match has_data positions_resp with
      | Ok true =>
          match data_rows positions_resp with
          | Ok rows =>
              fst (for_each (fun _ pos s => commit (upnl_row pos s) s)
                     rows 0 total_upnl)
          | Raise _ => total_upnl
          end
      | _ => total_upnl
      end
  end.

(** The body of the outer [try]; [Ok (Some balance)] is the call
    [repository.process_balances(balance)], [Ok None] a cycle that makes
    no call, [Raise] the branch that logs the failure. *)
Definition sync_account_cycle (get_balance get_positions : result pyval)
  : result (option Balance.t) :=
  account <- get_balance ;;
  d <- has_data account ;;
  if d then
    assets_data <- data_rows account ;;
    match for_each (fun _ asset s => commit (account_asset asset s) s)
            assets_data 0 (0%float, []) with
    | (_, Some e) => Raise e
    | ((total_balance, asset_balances), None) =>
        let total_upnl := positions_upnl get_positions 0%float in
        Ok (Some (Balance.mk total_balance total_upnl asset_balances))
    end
  else Ok None.

(** *** [sync_positions] *)

(** The rule that resolves a position's side. *)
Definition resolve_side (pos_side : pyval) (quantity : float) : string :=
  if py_eq_str pos_side "long" then "LONG"
  else if py_eq_str pos_side "short" then "SHORT"
  else if (0 <? quantity)%float then "LONG" else "SHORT".

(** [Position(...)] for a row of non-zero [quantity]. *)
Definition make_position (pos inst_id : pyval) (quantity : float)
  : result Position.t :=
  pos_side <- py_get pos "positionSide" (PStr "net") ;;
  let side := resolve_side pos_side quantity in
  symbol <- py_remove_hyphens inst_id ;;
  ap <- py_get pos "averagePrice" (PInt 0) ;;
  entry_price <- float_ ap ;;
  up <- py_get pos "unrealizedPnl" (PInt 0) ;;
  unrealizedProfit <- float_ up ;;
  im <- py_get pos "initialMargin" (PInt 0) ;;
  initial_margin <- float_ im ;;
  mp <- py_get pos "markPrice" (PInt 0) ;;
  market_price <- float_ mp ;;
  Ok (Position.mk symbol entry_price (abs quantity) side unrealizedProfit
        initial_margin market_price).

(** The quantity a row is tested on, [float(pos.get('positions', 0))]. *)
Definition row_quantity (pos : pyval) : result float :=
  q <- py_get pos "positions" (PInt 0) ;; float_ q.

(** One pass of [for pos in exchange_positions['data']], over
    [(self.activesymbols, positions)]: the instrument id is appended to the
    active symbols before the record is built. *)
Definition position_row (pos : pyval) (s : list pyval * list Position.t)
  : (list pyval * list Position.t) * option exn :=
  match row_quantity pos with
  | Raise e => (s, Some e)
  | Ok quantity =>
      if negb (quantity =? 0)%float then
        match py_get pos "instId" (PStr "") with
        | Raise e => (s, Some e)
        | Ok inst_id =>
            let active := (fst s ++ [inst_id])%list in
            match make_position pos inst_id quantity with
            | Ok p => ((active, (snd s ++ [p])%list), None)
            | Raise e => ((active, snd s), Some e)
            end
        end
      else (s, None)
  end.

Definition base_symbols : list pyval := [PStr "BTC-USDT"].

(** The body of the [try]: the object after the cycle, and either the list
    given to [repository.process_positions] or the exception logged. *)
Definition sync_positions_cycle (self : BlofinFutures)
    (get_positions : result pyval)
  : BlofinFutures * result (list Position.t) :=
  let reset := {| symbols := symbols self; activesymbols := base_symbols |} in
  match (exchange_positions <- get_positions ;;
         response_rows exchange_positions) with
  | Raise e => (reset, Raise e)
  | Ok rows =>
      match for_each (fun _ => position_row) rows 0 (base_symbols, []) with
      | ((active, positions), err) =>
          ({| symbols := symbols self; activesymbols := active |},
           match err with None => Ok positions | Some e => Raise e end)
      end
  end.

(** *** [sync_open_orders] *)

Definition in_list (s : string) (l : list string) : bool :=
  existsb (String.eqb s) l.

(** One pass of [for item in open_orders['data']]: the order built. *)
Definition order_row (item : pyval) : result Order.t :=
  inst_id <- py_get item "instId" (PStr "") ;;
  symbol <- py_remove_hyphens inst_id ;;
  p <- py_get item "price" (PInt 0) ;;
  price <- float_ p ;;
  q <- py_get item "size" (PInt 0) ;;
  quantity <- float_ q ;;
  sd <- py_get item "side" (PStr "") ;;
  side <- py_upper str_upper sd ;;
  let order_side := if in_list side ["BUY"; "SELL"] then side else side in
  pos_side <- py_get item "positionSide" (PStr "net") ;;
  let position_side :=
    if py_eq_str pos_side "long" then "LONG"
    else if py_eq_str pos_side "short" then "SHORT"
    else if String.eqb side "BUY" then "LONG" else "SHORT" in
  t <- py_get item "orderType" (PStr "limit") ;;
  type <- py_upper str_upper t ;;
  Ok (Order.mk symbol price quantity order_side position_side type).

(** The body of the [try]: the list given to
    [repository.process_orders]. *)
Definition sync_open_orders_cycle (get_active_orders : result pyval)
  : result (list Order.t) :=
  open_orders <- get_active_orders ;;
  rows <- response_rows open_orders ;;
  match for_each (fun _ item orders =>
                    commit (o <- order_row item ;; Ok (orders ++ [o])%list) orders)
          rows 0 [] with
  | (orders, None) => Ok orders
  | (_, Some e) => Raise e
  end.

(** *** [sync_current_price] *)

Definition hashable (v : pyval) : bool :=
  match v with
  | PList _ | PDict _ => false
  | _ => true
  end.

(** [list(set(self.activesymbols + [self._to_blofin_symbol(symbol)]))];
    a list or dict among the items raises [TypeError]. *)
Definition symbols_to_fetch (self : BlofinFutures) (symbol : string)
  : result (list pyval) :=
  let xs := (activesymbols self ++ [PStr (_to_blofin_symbol symbol)])%list in
  if forallb hashable xs then Ok (list_of_set xs) else Raise TypeError.

(** [ticker and 'data' in ticker and len(ticker['data']) > 0] *)
Definition has_rows (ticker : pyval) : result bool :=
  d <- has_data ticker ;;
  if d then
    rows <- py_getitem ticker "data" ;;
    n <- py_len rows ;;
    Ok (0 <? n)%nat
  else Ok false.

(** The body of the inner [try] for one symbol: the tick given to
    [repository.process_tick], if any.  [now] is the clock's reading,
    [int(time.time() * 1000)]. *)
Definition fetch_tick (get_tickers : pyval -> result pyval) (now : Z)
    (sym : pyval) : result (option Tick.t) :=
  ticker <- get_tickers sym ;;
  ok <- has_rows ticker ;;
  if ok then
    rows <- py_getitem ticker "data" ;;
    tick_data <- py_first rows ;;
    symbol <- py_remove_hyphens sym ;;
    l <- py_get tick_data "last" (PInt 0) ;;
    price <- float_ l ;;
    ls <- py_get tick_data "lastSize" (PInt 0) ;;
    qty <- float_ ls ;;
    ts <- py_get tick_data "ts" (PInt now) ;;
    timestamp <- int_ ts ;;
    Ok (Some (Tick.mk symbol price qty timestamp))
  else Ok None.

(** One pass of [for sym in symbols_to_fetch]: the inner [except] logs the
    exception and the loop goes on. *)
Definition tick_pass (get_tickers : pyval -> result pyval) (clock : nat -> Z)
    (i : nat) (sym : pyval) (ticks : list Tick.t)
  : list Tick.t * option exn :=
  match fetch_tick get_tickers (clock i) sym with
  | Ok (Some tick) => ((ticks ++ [tick])%list, None)
  | Ok None => (ticks, None)
  | Raise _ => (ticks, None)
  end.

(** The body of the outer [try]: the ticks given to
    [repository.process_tick], one call each, in order. *)
Definition sync_current_price_cycle (self : BlofinFutures) (symbol : string)
    (get_tickers : pyval -> result pyval) (clock : nat -> Z)
  : result (list Tick.t) :=
  syms <- symbols_to_fetch self symbol ;;
  match for_each (tick_pass get_tickers clock) syms 0 [] with
  | (ticks, None) => Ok ticks
  | (_, Some e) => Raise e
  end.

(** *** [sync_trades] *)

(** [params]: the limit, and the cursor once it is set. *)
Definition order_history_params (last_synced_id : pyval)
  : list (string * pyval) :=
  (("limit", PStr "100")
     :: (if truthy last_synced_id then [("after", last_synced_id)] else [])).

(** One pass of [for trade in exchange_orders['data']], over
    [(incomes, last_synced_id)]. *)
Definition trade_row (now : Z) (trade : pyval) (s : list Income.t * pyval)
  : result (list Income.t * pyval) :=
  state <- py_get trade "state" (PStr "") ;;
  if negb (py_eq_str state "filled") then Ok s
  else
    p <- py_get trade "pnl" (PInt 0) ;;
    pnl <- float_ p ;;
    f <- py_get trade "fee" (PInt 0) ;;
    fee <- float_ f ;;
    incomes <-
      (if negb (pnl =? 0)%float then
         inst_id <- py_get trade "instId" (PStr "") ;;
         symbol <- py_remove_hyphens inst_id ;;
         ts <- py_get trade "updateTime" (PInt now) ;;
         timestamp <- int_ ts ;;
         transaction_id <- py_get trade "orderId" (PStr "") ;;
         Ok (fst s ++ [Income.mk symbol "USDT" "REALIZED_PNL" (pnl + fee)%float
                         timestamp transaction_id])%list
       else Ok (fst s)) ;;
    order_id <- py_get trade "orderId" PNone ;;
    Ok (incomes, if truthy order_id then order_id else snd s).

(** One page: the rows of one order-history response, from the cursor
    [last_synced_id]; the variables after the loop and the exception that
    ended it, if any. *)
Definition sync_trades_page (clock : nat -> Z) (rows : list pyval)
    (last_synced_id : pyval) : (list Income.t * pyval) * option exn :=
  for_each (fun i trade s => commit (trade_row (clock i) trade s) s)
    rows 0 ([], last_synced_id).

(** The body of the [try]: the cursor after the cycle, and either the list
    given to [repository.process_incomes] ([None]: no call) or the
    exception logged. *)
Definition sync_trades_cycle (last_synced_id : pyval)
    (get_order_history : list (string * pyval) -> result pyval)
    (clock : nat -> Z) : pyval * result (option (list Income.t)) :=
  match (exchange_orders <- get_order_history (order_history_params last_synced_id) ;;
         d <- has_data exchange_orders ;;
         if d then (rows <- data_rows exchange_orders ;; Ok (Some rows))
         else Ok None) with
  | Raise e => (last_synced_id, Raise e)
  | Ok None => (last_synced_id, Ok None)
  | Ok (Some rows) =>
      match sync_trades_page clock rows last_synced_id with
      | ((incomes, cursor), None) =>
          (cursor, Ok (match incomes with [] => None | _ => Some incomes end))
      | ((_, cursor), Some e) => (cursor, Raise e)
      end
  end.

(** The [while True] of [sync_trades], for as many cycles as [cycles] lists:
    each entry is what the exchange answers in that cycle and the clock of
    that cycle.  The cursor is the loop's local variable, carried from one
    cycle to the next; the result is the cursor after the last cycle and, for
    each cycle, the [params] of its request with its outcome. *)
Fixpoint sync_trades_loop
    (cycles : list ((list (string * pyval) -> result pyval) * (nat -> Z)))
    (last_synced_id : pyval)
  : pyval * list (list (string * pyval) * result (option (list Income.t))) :=
  match cycles with
  | [] => (last_synced_id, [])
  | (get_order_history, clock) :: rest =>
      let '(cursor, outcome) :=
        sync_trades_cycle last_synced_id get_order_history clock in
      let '(final, log) := sync_trades_loop rest cursor in
      (final, (order_history_params last_synced_id, outcome) :: log)
  end.

End Sync.

(** ** Start-up *)

(** How [__init__] ends: with the object built, or with [SystemExit], which
    the [except Exception] of the check does not catch. *)
Inductive startup : Type :=
| Started (self : BlofinFutures)
| SystemExit.

(** [BlofinFutures.__init__], given the symbols to track and what the
    balance request of the login check returns: any exception of the check
    and any answer without data end in [SystemExit]; otherwise the object
    starts with no active symbol. *)
Definition __init__ (symbols : list string) (get_balance : result pyval)
  : startup :=
  match (test <- get_balance ;; has_data test) with
  | Ok true => Started {| symbols := symbols; activesymbols := [] |}
  | Ok false => SystemExit
  | Raise _ => SystemExit
  end.

(** * Vocabulary of the statements

    The tests and the conversions of the loops, named, so that the properties
    below can speak of the rows a loop keeps and of the record built from a
    row. *)

Section Properties.

Variable float_of_str : string -> option float.
Variable int_of_str : string -> option Z.
Variable list_of_set : list pyval -> list pyval.
Variable str_upper : string -> string.

Fixpoint contains_hyphen (s : string) : bool :=
  match s with
  | EmptyString => false
  | String c t => Ascii.eqb c hyphen || contains_hyphen t
  end.

(** A row the loop keeps: [quantity != 0]. *)
Definition nonzero_size (pos : pyval) : bool :=
  match row_quantity float_of_str pos with
  | Ok quantity => negb (quantity =? 0)%float
  | Raise _ => false
  end.

(** [p] is the record built from the row [pos]. *)
Definition position_of (pos : pyval) (p : Position.t) : Prop :=
  exists quantity inst_id,
    row_quantity float_of_str pos = Ok quantity
    /\ (quantity =? 0)%float = false
    /\ py_get pos "instId" (PStr "") = Ok inst_id
    /\ make_position float_of_str pos inst_id quantity = Ok p.

(** [v] is the instrument id of the row [pos]. *)
Definition inst_id_of (pos : pyval) (v : pyval) : Prop :=
  py_get pos "instId" (PStr "") = Ok v.


(** The size of the record [p] is the absolute value of the quantity of the
    row [pos], which is not zero; it is strictly positive unless the
    quantity is NaN. *)
Definition size_is_magnitude (pos : pyval) (p : Position.t) : Prop :=
  exists quantity,
    row_quantity float_of_str pos = Ok quantity
    /\ (quantity =? 0)%float = false
    /\ Position.position_size p = abs quantity
    /\ (is_nan quantity = false -> (0 <? Position.position_size p)%float = true).

(** On ASCII text Python's [str.upper] is [ascii_upper]. *)
Definition upper_on_ascii : Prop :=
  forall s, is_ascii s = true -> str_upper s = ascii_upper s.

(** The side of the order [o] is the side string of the row [item],
    uppercased by [str.upper], which for a side of ASCII characters is that
    string with a-z turned into A-Z; it is BUY or SELL exactly when that
    uppercased string is. *)
Definition side_uppercased (item : pyval) (o : Order.t) : Prop :=
  exists s,
    py_get item "side" (PStr "") = Ok (PStr s)
    /\ Order.side o = str_upper s
    /\ (is_ascii s = true -> Order.side o = ascii_upper s)
    /\ ((Order.side o = "BUY" \/ Order.side o = "SELL")
        <-> (str_upper s = "BUY" \/ str_upper s = "SELL")).

(** [float(asset.get('balance', 0))] *)
Definition row_balance (asset : pyval) : result float :=
  b <- py_get asset "balance" (PInt 0) ;; py_float float_of_str b.

(** The loop's test [currency == 'USDT'] on a row, [currency] being
    [asset.get('currency', 'USDT')]. *)
Definition is_quote_row (asset : pyval) : bool :=
  match py_get asset "currency" (PStr "USDT") with
  | Ok currency => py_eq_str currency "USDT"
  | Raise _ => false
  end.

Definition is_asset_row (asset : pyval) : bool := negb (is_quote_row asset).

(** [a] is the entry built from the row [asset]. *)
Definition asset_balance_of (asset : pyval) (a : AssetBalance.t) : Prop :=
  py_get asset "currency" (PStr "USDT") = Ok (AssetBalance.asset a)
  /\ row_balance asset = Ok (AssetBalance.balance a)
  /\ AssetBalance.unrealizedProfit a = 0%float.

(** The 'currency' field of a row, if it has one. *)
Definition currency_field (asset : pyval) : option pyval :=
  match asset with
  | PDict d => lookup "currency" d
  | _ => None
  end.

Definition is_dict (v : pyval) : bool :=
  match v with
  | PDict _ => true
  | _ => false
  end.

(** The balance response of the specification's scenario, and the record
    it predicts. *)
Definition scenario_account : pyval :=
  PDict [("data",
          PList [PDict [("currency", PStr "USDT"); ("balance", PFloat 100)];
                 PDict [("currency", PStr "BTC"); ("balance", PFloat 0.002)]])].

Definition scenario_balance : Balance.t :=
  Balance.mk 100 5 [AssetBalance.mk (PStr "BTC") 0.002 0].

(** A row counts as the quote currency when it has no 'currency' field or
    when the field is 'USDT'. *)
Definition counts_as_quote (asset : pyval) : bool :=
  match currency_field asset with
  | None => true
  | Some currency => py_eq_str currency "USDT"
  end.

(** A row whose 'currency' field is present and is not 'USDT'. *)
Definition has_other_currency (asset : pyval) : bool :=
  match currency_field asset with
  | None => false
  | Some currency => negb (py_eq_str currency "USDT")
  end.

(** The entry [a] carries the 'currency' field of the row [asset], which is
    present and is not 'USDT'. *)
Definition other_currency_entry (asset : pyval) (a : AssetBalance.t) : Prop :=
  currency_field asset = Some (AssetBalance.asset a)
  /\ AssetBalance.asset a <> PStr "USDT".

(** The loop's test [state == 'filled'] on a row. *)
Definition is_filled (trade : pyval) : bool :=
  match py_get trade "state" (PStr "") with
  | Ok state => py_eq_str state "filled"
  | Raise _ => false
  end.

(** [float(trade.get('pnl', 0))] and [float(trade.get('fee', 0))] *)
Definition row_pnl (trade : pyval) : result float :=
  p <- py_get trade "pnl" (PInt 0) ;; py_float float_of_str p.

Definition row_fee (trade : pyval) : result float :=
  f <- py_get trade "fee" (PInt 0) ;; py_float float_of_str f.

(** A row that is filled and whose pnl is not zero. *)
Definition yields_income (trade : pyval) : bool :=
  is_filled trade
  && match row_pnl trade with
     | Ok pnl => negb (pnl =? 0)%float
     | Raise _ => false
     end.

(** [inc] is the record built from the row [trade]. *)
Definition income_of (trade : pyval) (inc : Income.t) : Prop :=
  exists pnl fee,
    row_pnl trade = Ok pnl /\ row_fee trade = Ok fee
    /\ Income.income inc = (pnl + fee)%float
    /\ Income.asset inc = "USDT" /\ Income.type inc = "REALIZED_PNL".

(** The list given to [repository.process_incomes]; no call, no incomes. *)
Definition incomes_given (out : option (list Income.t)) : list Income.t :=
  match out with
  | Some incomes => incomes
  | None => []
  end.

(** A row that moves the cursor: filled, with an order id that is set. *)
Definition advances (trade : pyval) : bool :=
  is_filled trade
  && match py_get trade "orderId" PNone with
     | Ok order_id => truthy order_id
     | Raise _ => false
     end.

Definition cursor_step (cursor trade : pyval) : pyval :=
  if advances trade then
    match py_get trade "orderId" PNone with
    | Ok order_id => order_id
    | Raise _ => cursor
    end
  else cursor.

(** [cursor] is the order id of the last row of the page [rows] that moves
    the cursor, or the cursor [before] the page when no row moves it. *)
Definition cursor_is_last_advancing (rows : list pyval) (before cursor : pyval)
  : Prop :=
  (forall pre trade post,
      rows = (pre ++ trade :: post)%list ->
      advances trade = true ->
      forallb (fun t => negb (advances t)) post = true ->
      py_get trade "orderId" PNone = Ok cursor)
  /\ (forallb (fun t => negb (advances t)) rows = true -> cursor = before).

(** The specification's words on the cursor, "the maximum orderId seen in that
    page": Python's [a <= b] between two strings or two integers, the order
    ids a page shows, and the greatest of them. *)
Definition py_le (a b : pyval) : bool :=
  match a, b with
  | PStr s, PStr t => String.leb s t
  | PInt x, PInt y => (x <=? y)%Z
  | _, _ => false
  end.

Definition page_order_ids (rows : list pyval) : list pyval :=
  flat_map (fun trade =>
              match trade with
              | PDict d => match lookup "orderId" d with
                           | Some order_id => [order_id]
                           | None => []
                           end
              | _ => []
              end) rows.

Definition is_maximum (c : pyval) (ids : list pyval) : Prop :=
  In c ids /\ forall x, In x ids -> py_le x c = true.

(** The symbol fetched in the [k]-th pass yields the tick [tick]: its ticker
    was fetched, had a row, and the row converted. *)
Definition tick_from (get_tickers : pyval -> result pyval) (clock : nat -> Z)
    (syms : list pyval) (k : nat) (tick : Tick.t) : Prop :=
  exists sym,
    nth_error syms k = Some sym
    /\ fetch_tick float_of_str int_of_str get_tickers (clock k) sym = Ok (Some tick).

(** [float(pos.get('unrealizedPnl', 0))] *)
Definition row_upnl (pos : pyval) : result float :=
  u <- py_get pos "unrealizedPnl" (PInt 0) ;; py_float float_of_str u.

(** The loop of [sync_account] over the rows [rows], from its initial
    variables: the variables after it and the exception that ended it. *)
Definition account_loop (rows : list pyval)
  : (float * list AssetBalance.t) * option exn :=
  for_each (fun _ asset s => commit (account_asset float_of_str asset s) s)
    rows 0 (0%float, []).

(** The loop of [sync_positions] over the rows [rows], from the reset list
    of active symbols and no position. *)
Definition position_loop (rows : list pyval)
  : (list pyval * list Position.t) * option exn :=
  for_each (fun _ => position_row float_of_str) rows 0 (base_symbols, []).

(** The instrument id [id] is a string, and [symbol] is that string without
    its hyphens. *)
Definition normalizes_to (id : pyval) (symbol : string) : Prop :=
  exists s, id = PStr s /\ symbol = remove_hyphens s.

(** The position side of the order [o] follows from the row [item]: LONG
    for positionSide "long", SHORT for "short", and otherwise LONG when the
    order's side is BUY and SHORT when it is anything else. *)
Definition order_position_side_resolved (item : pyval) (o : Order.t) : Prop :=
  exists pos_side,
    py_get item "positionSide" (PStr "net") = Ok pos_side
    /\ (pos_side = PStr "long" -> Order.position_side o = "LONG")
    /\ (pos_side = PStr "short" -> Order.position_side o = "SHORT")
    /\ (pos_side <> PStr "long" -> pos_side <> PStr "short" ->
        Order.position_side o
        = if String.eqb (Order.side o) "BUY" then "LONG" else "SHORT").

(** The symbol of the order [o] is the instrument id of the row [item]
    without its hyphens, and its type is the row's order type, 'limit' when
    the row has none, uppercased by [str.upper]: for an order type of ASCII
    characters that is the order type with a-z turned into A-Z, and LIMIT
    for 'limit'. *)
Definition order_symbol_and_type (item : pyval) (o : Order.t) : Prop :=
  exists inst_id order_type,
    py_get item "instId" (PStr "") = Ok inst_id
    /\ normalizes_to inst_id (Order.symbol o)
    /\ py_get item "orderType" (PStr "limit") = Ok (PStr order_type)
    /\ Order.type o = str_upper order_type
    /\ (is_ascii order_type = true -> Order.type o = ascii_upper order_type)
    /\ (order_type = "limit" -> Order.type o = "LIMIT").

(** The row [item] converts to an order. *)
Definition order_row_passes (item : pyval) : Prop :=
  exists o, order_row float_of_str str_upper item = Ok o.

(** The first row of a ticker answer, [ticker['data'][0]]. *)
Definition first_ticker_row (ticker : pyval) : result pyval :=
  rows <- py_getitem ticker "data" ;; py_first rows.

(** The symbol of the income [inc] is the instrument id of the row [trade]
    without its hyphens, and its transaction id is the row's order id, the
    empty string when the row has none. *)
Definition income_record_of (trade : pyval) (inc : Income.t) : Prop :=
  exists inst_id,
    py_get trade "instId" (PStr "") = Ok inst_id
    /\ normalizes_to inst_id (Income.symbol inc)
    /\ py_get trade "orderId" (PStr "") = Ok (Income.transaction_id inc).

(** The request [params] carries an 'after' cursor, and it is set. *)
Definition asks_after (params : list (string * pyval)) : Prop :=
  exists cursor, lookup "after" params = Some cursor /\ truthy cursor = true.

(** ** Sample data

    The runs at the end of the file keep every number as a number, so that
    no numeral is ever read from a string: they are run with parsers that
    know no numeral, and, their symbols being distinct, with the set listed
    in the order given.  Their sides and order types are ASCII text, on
    which [str.upper] is [ascii_upper]. *)

Definition no_float : string -> option float := fun _ => None.
Definition no_int : string -> option Z := fun _ => None.
Definition in_given_order (xs : list pyval) : list pyval := xs.

(** A synchronizer configured for ETHUSDT. *)
Definition sample_self : BlofinFutures :=
  {| symbols := ["ETHUSDT"]; activesymbols := [PStr "ETH-USDT"] |}.

Definition sample_position_rows : list pyval :=
  [PDict [("instId", PStr "BTC-USDT"); ("positions", PFloat 0.5);
          ("positionSide", PStr "net"); ("averagePrice", PInt 50000);
          ("unrealizedPnl", PInt 10); ("markPrice", PInt 50100)];
   PDict [("instId", PStr "ETH-USDT"); ("positions", PInt 0);
          ("positionSide", PStr "net")];
   PDict [("instId", PStr "SOL-USDT"); ("positions", PFloat (-3));
          ("positionSide", PStr "long"); ("unrealizedPnl", PFloat (-5))];
   PDict [("instId", PStr "XRP-USDT"); ("positions", PInt (-40));
          ("positionSide", PStr "net")]].

Definition sample_positions : pyval :=
  PDict [("data", PList sample_position_rows)].

Definition no_positions : pyval := PDict [("data", PList [])].

(** A position whose size the exchange reports as NaN. *)
Definition nan_positions : pyval :=
  PDict [("data", PList [PDict [("instId", PStr "BTC-USDT");
                               ("positions", PFloat nan)]])].

Definition sample_order_rows : list pyval :=
  [PDict [("instId", PStr "BTC-USDT"); ("price", PInt 50000); ("size", PInt 1);
          ("side", PStr "buy"); ("positionSide", PStr "net");
          ("orderType", PStr "limit")];
   PDict [("instId", PStr "ETH-USDT"); ("price", PInt 3000); ("size", PInt 2);
          ("side", PStr "Sell"); ("positionSide", PStr "long");
          ("orderType", PStr "market")]].

Definition sample_orders : pyval := PDict [("data", PList sample_order_rows)].

(** An order whose side is neither buy nor sell. *)
Definition odd_side_orders : pyval :=
  PDict [("data", PList [PDict [("instId", PStr "BTC-USDT");
                               ("price", PInt 50000); ("size", PInt 1);
                               ("side", PStr "hold")]])].

(** Positions whose unrealizedPnl sums to 5.0. *)
Definition upnl_positions : pyval :=
  PDict [("data", PList [PDict [("unrealizedPnl", PFloat 2)];
                         PDict [("unrealizedPnl", PFloat 3)]])].

Definition mixed_account_rows : list pyval :=
  [PDict [("balance", PInt 70)];
   PDict [("currency", PStr "BTC"); ("balance", PFloat 0.002)];
   PDict [("currency", PStr "USDT"); ("balance", PInt 100)];
   PDict [("balance", PInt 50); ("available", PInt 20)]].

Definition mixed_account : pyval := PDict [("data", PList mixed_account_rows)].

(** A page of order history, newest order first. *)
Definition sample_page_rows : list pyval :=
  [PDict [("instId", PStr "BTC-USDT"); ("state", PStr "filled");
          ("pnl", PFloat 12.5); ("fee", PFloat (-0.5));
          ("updateTime", PInt 1700000000000); ("orderId", PStr "1009")];
   PDict [("instId", PStr "ETH-USDT"); ("state", PStr "filled");
          ("pnl", PInt 0); ("fee", PFloat (-0.25));
          ("updateTime", PInt 1699999990000); ("orderId", PStr "1005")];
   PDict [("instId", PStr "ETH-USDT"); ("state", PStr "canceled");
          ("pnl", PInt 0); ("fee", PInt 0); ("orderId", PStr "1001")]].

Definition sample_page : pyval := PDict [("data", PList sample_page_rows)].

Definition sample_clock (i : nat) : Z := 1700000000000 + Z.of_nat i.

(** Three active symbols, the ticker of one of which cannot be fetched. *)
Definition three_symbols : BlofinFutures :=
  {| symbols := ["BTCUSDT"];
     activesymbols := [PStr "ETH-USDT"; PStr "SOL-USDT"] |}.

Definition sample_tickers (sym : pyval) : result pyval :=
  if py_eq_str sym "BTC-USDT" then
    Ok (PDict [("data", PList [PDict [("last", PFloat 50100);
                                      ("lastSize", PFloat 0.5);
                                      ("ts", PInt 1700000000500)]])])
  else if py_eq_str sym "SOL-USDT" then
    Ok (PDict [("data", PList [PDict [("last", PFloat 150);
                                      ("lastSize", PInt 4)]])])
  else Raise GatewayError.

(** Positions of which the second has no usable unrealizedPnl. *)
Definition upnl_rows_before : list pyval := [PDict [("unrealizedPnl", PFloat 2)]].

Definition upnl_bad_row : pyval := PDict [("unrealizedPnl", PNone)].

Definition upnl_rows_after : list pyval := [PDict [("unrealizedPnl", PFloat 3)]].

(** A balance row whose 'available' is not a number. *)
Definition usdt_row : pyval :=
  PDict [("currency", PStr "USDT"); ("balance", PInt 100)].

Definition bad_available : list (string * pyval) :=
  [("currency", PStr "BTC"); ("balance", PFloat 0.002); ("available", PNone)].

(** Position rows of which the second has no usable averagePrice, and a
    position row whose instrument id is a list. *)
Definition btc_position_row : pyval :=
  PDict [("instId", PStr "BTC-USDT"); ("positions", PFloat 0.5)].

Definition bad_price_row : pyval :=
  PDict [("instId", PStr "ETH-USDT"); ("positions", PInt 2);
         ("averagePrice", PNone)].

Definition list_id_row : pyval :=
  PDict [("instId", PList [PStr "ETH-USDT"]); ("positions", PInt 2)].

(** An order row without a side that is a string. *)
Definition bad_side_row : pyval :=
  PDict [("instId", PStr "SOL-USDT"); ("side", PNone)].

(** A filled order whose pnl is not a number. *)
Definition bad_pnl_row : pyval :=
  PDict [("state", PStr "filled"); ("pnl", PNone); ("orderId", PStr "1003")].

Definition filled_row : pyval :=
  PDict [("instId", PStr "BTC-USDT"); ("state", PStr "filled");
         ("pnl", PFloat 12.5); ("fee", PFloat (-0.5));
         ("updateTime", PInt 1700000000000); ("orderId", PStr "1009")].

(** Wraps rows into an answer of the exchange. *)
Definition answer (rows : list pyval) : pyval := PDict [("data", PList rows)].

(** * Properties *)

(** ** Sanity checks of the builtins *)

Example blofin_btc : _to_blofin_symbol "BTCUSDT" = "BTC-USDT".
Proof. reflexivity. Qed.

Example blofin_unknown_suffix : _to_blofin_symbol "BTCEUR" = "BTCEUR".
Proof. reflexivity. Qed.

Example float_of_Z_7 : float_of_Z 7 = Ok 7%float.
Proof. reflexivity. Qed.

Example Z_of_float_neg : Z_of_float (-2.75)%float = Ok (-2)%Z.
Proof. reflexivity. Qed.

Example ascii_upper_buy : ascii_upper "buy" = "BUY".
Proof. reflexivity. Qed.

(** ** Strings *)

Lemma remove_hyphens_app (a b : string) :
  remove_hyphens (a ++ b) = remove_hyphens a ++ remove_hyphens b.
Proof.
  induction a as [|c a IH]; simpl; [reflexivity|].
  destruct (Ascii.eqb c hyphen); simpl; now rewrite IH.
Qed.

Lemma remove_hyphens_id (s : string) :
  contains_hyphen s = false -> remove_hyphens s = s.
Proof.
  induction s as [|c s IH]; simpl; [reflexivity|].
  intros H. apply orb_false_iff in H as [Hc Hs].
  rewrite Hc. now rewrite IH.
Qed.

Lemma length_app (a b : string) :
  String.length (a ++ b) = String.length a + String.length b.
Proof. induction a as [|c a IH]; simpl; [reflexivity | now rewrite IH]. Qed.

Lemma substring_all (b : string) : substring 0 (String.length b) b = b.
Proof. induction b as [|c b IH]; simpl; [reflexivity | now rewrite IH]. Qed.

Lemma substring_suffix (a b : string) :
  substring (String.length a) (String.length b) (a ++ b) = b.
Proof. induction a as [|c a IH]; simpl; [apply substring_all | exact IH]. Qed.

Lemma substring_prefix (a b : string) :
  substring 0 (String.length a) (a ++ b) = a.
Proof.
  induction a as [|c a IH]; simpl.
  - now destruct b.
  - now rewrite IH.
Qed.

Lemma endswith_app (a b : string) : endswith (a ++ b) b = true.
Proof.
  unfold endswith. rewrite length_app.
  replace (String.length a + String.length b - String.length b)
    with (String.length a) by lia.
  rewrite substring_suffix, String.eqb_refl, andb_true_r.
  apply Nat.leb_le. lia.
Qed.

Lemma endswith_app_neq (a b c : string) :
  String.length b = String.length c -> b <> c -> endswith (a ++ b) c = false.
Proof.
  intros Hl Hn. unfold endswith. rewrite length_app, <- Hl.
  replace (String.length a + String.length b - String.length b)
    with (String.length a) by lia.
  rewrite substring_suffix.
  apply andb_false_iff. right. now apply String.eqb_neq.
Qed.

Lemma drop_last_app (k : nat) (a b : string) :
  k = String.length b -> drop_last k (a ++ b) = a.
Proof.
  intros ->. unfold drop_last. rewrite length_app.
  replace (String.length a + String.length b - String.length b)
    with (String.length a) by lia.
  apply substring_prefix.
Qed.

Lemma to_blofin_usdt (base : string) :
  _to_blofin_symbol (base ++ "USDT") = base ++ "-USDT".
Proof.
  unfold _to_blofin_symbol. rewrite endswith_app.
  now rewrite (drop_last_app 4 base "USDT").
Qed.

Lemma to_blofin_usdc (base : string) :
  _to_blofin_symbol (base ++ "USDC") = base ++ "-USDC".
Proof.
  unfold _to_blofin_symbol.
  rewrite (endswith_app_neq base "USDC" "USDT") by (reflexivity || discriminate).
  rewrite endswith_app.
  now rewrite (drop_last_app 4 base "USDC").
Qed.

(** ** Symbol normalizer *)

(** C3, as the code has it: for a BASE that holds no hyphen and a quote
    USDT or USDC, converting BASE-QUOTE to the internal format and back gives
    BASE-QUOTE again, and converting BASEQUOTE to the exchange format and
    back gives BASEQUOTE again. *)
Theorem symbol_round_trip (base quote : string) :
  quote = "USDT" \/ quote = "USDC" ->
  contains_hyphen base = false ->
  _to_blofin_symbol (remove_hyphens (base ++ "-" ++ quote)) = base ++ "-" ++ quote
  /\ remove_hyphens (_to_blofin_symbol (base ++ quote)) = base ++ quote.
Proof.
  intros Hq Hb.
  assert (Hto : _to_blofin_symbol (base ++ quote) = base ++ "-" ++ quote).
  { destruct Hq; subst quote; [apply to_blofin_usdt | apply to_blofin_usdc]. }
  assert (Hrm : remove_hyphens (base ++ "-" ++ quote) = base ++ quote).
  { rewrite remove_hyphens_app, (remove_hyphens_id base Hb).
    destruct Hq; subst quote; reflexivity. }
  split.
  - now rewrite Hrm.
  - now rewrite Hto.
Qed.

(** ** Position Sync *)

Lemma position_rows_ok (rows : list pyval) :
  forall i a0 p0 a p,
    for_each (fun _ => position_row float_of_str) rows i (a0, p0) = ((a, p), None) ->
    exists ids new,
      a = (a0 ++ ids)%list /\ p = (p0 ++ new)%list
      /\ Forall2 inst_id_of (filter nonzero_size rows) ids
      /\ Forall2 position_of (filter nonzero_size rows) new.
Proof.
  induction rows as [|r rows IH]; intros i a0 p0 a p H; simpl in H.
  - inversion H; subst. exists [], []. rewrite !app_nil_r. repeat split; constructor.
  - unfold position_row in H at 1.
    destruct (row_quantity float_of_str r) as [q|e] eqn:Hq; [|discriminate].
    assert (Hnz : nonzero_size r = negb (q =? 0)%float)
      by (unfold nonzero_size; now rewrite Hq).
    simpl filter. rewrite Hnz.
    destruct (q =? 0)%float eqn:Hz; simpl in H |- *.
    + apply IH in H. exact H.
    + destruct (py_get r "instId" (PStr "")) as [inst_id|e] eqn:Hi; [|discriminate].
      destruct (make_position float_of_str r inst_id q) as [pr|e] eqn:Hp;
        [|discriminate].
      simpl in H. apply IH in H.
      destruct H as (ids & new & -> & -> & Hids & Hnew).
      exists (inst_id :: ids), (pr :: new).
      rewrite <- !app_assoc. simpl. repeat split.
      * constructor; assumption.
      * constructor; [|assumption]. exists q, inst_id. auto.
Qed.

Lemma position_rows_prefix (rows : list pyval) :
  forall i a0 p0 a p err,
    for_each (fun _ => position_row float_of_str) rows i (a0, p0) = ((a, p), err) ->
    exists ids, a = (a0 ++ ids)%list.
Proof.
  induction rows as [|r rows IH]; intros i a0 p0 a p err H; simpl in H.
  - inversion H; subst. exists []. now rewrite app_nil_r.
  - unfold position_row in H at 1.
    destruct (row_quantity float_of_str r) as [q|e]; simpl in H;
      [|inversion H; subst; exists []; now rewrite app_nil_r].
    destruct (negb (q =? 0)%float); simpl in H; [|eapply IH; eassumption].
    destruct (py_get r "instId" (PStr "")) as [inst_id|e]; simpl in H;
      [|inversion H; subst; exists []; now rewrite app_nil_r].
    destruct (make_position float_of_str r inst_id q) as [pr|e]; simpl in H.
    + apply IH in H. destruct H as (ids & ->).
      exists (inst_id :: ids). now rewrite <- app_assoc.
    + inversion H; subst. now exists [inst_id].
Qed.

Lemma make_position_fields (pos inst_id : pyval) (quantity : float) (p : Position.t) :
  make_position float_of_str pos inst_id quantity = Ok p ->
  exists pos_side,
    py_get pos "positionSide" (PStr "net") = Ok pos_side
    /\ Position.side p = resolve_side pos_side quantity
    /\ Position.position_size p = abs quantity
    /\ py_remove_hyphens inst_id = Ok (Position.symbol p).
Proof.
  unfold make_position. intros H.
  destruct (py_get pos "positionSide" (PStr "net")) as [ps|] ; [|discriminate].
  simpl in H.
  destruct (py_remove_hyphens inst_id) as [sym|]; [|discriminate]. simpl in H.
  repeat match type of H with
  | bind ?c _ = Ok _ => destruct c; [simpl in H | discriminate]
  end.
  inversion H; subst; simpl. exists ps. auto.
Qed.

Lemma py_eq_str_true (v : pyval) (s : string) :
  py_eq_str v s = true <-> v = PStr s.
Proof.
  destruct v; simpl; try (split; [discriminate | intros H; discriminate H]).
  rewrite String.eqb_eq. split; [now intros -> | now intros [= ->]].
Qed.

Lemma py_eq_str_false (v : pyval) (s : string) :
  py_eq_str v s = false <-> v <> PStr s.
Proof.
  rewrite <- py_eq_str_true. destruct (py_eq_str v s); split; congruence.
Qed.

(** What [sync_positions_cycle] hands to the repository, row by row. *)
Lemma sync_positions_cycle_ok (self : BlofinFutures) (resp : pyval)
    (rows : list pyval) (positions : list Position.t) :
  response_rows resp = Ok rows ->
  snd (sync_positions_cycle float_of_str self (Ok resp)) = Ok positions ->
  exists ids,
    activesymbols (fst (sync_positions_cycle float_of_str self (Ok resp)))
    = PStr "BTC-USDT" :: ids
    /\ Forall2 inst_id_of (filter nonzero_size rows) ids
    /\ Forall2 position_of (filter nonzero_size rows) positions.
Proof.
  unfold sync_positions_cycle. simpl bind. intros -> H.
  destruct (for_each _ rows 0 (base_symbols, [])) as [[a p] err] eqn:Hloop.
  simpl in H |- *. destruct err as [e|]; [discriminate|].
  inversion H; subst p.
  apply position_rows_ok in Hloop.
  destruct Hloop as (ids & new & -> & -> & Hids & Hnew).
  exists ids. auto.
Qed.

(** C2, as the code has it: every cycle first resets the active symbols to
    the fixed list [["BTC-USDT"]], whatever symbols the synchronizer was
    configured with and whatever the list held before; after a cycle that
    completes, the list is [["BTC-USDT"]] followed by exactly the instrument
    ids of the rows of non-zero size, in their order. *)
Theorem active_symbols_after_cycle (self : BlofinFutures)
    (get_positions : result pyval) :
  (exists ids,
      activesymbols (fst (sync_positions_cycle float_of_str self get_positions))
      = PStr "BTC-USDT" :: ids)
  /\ symbols (fst (sync_positions_cycle float_of_str self get_positions))
     = symbols self
  /\ forall resp rows positions,
       get_positions = Ok resp ->
       response_rows resp = Ok rows ->
       snd (sync_positions_cycle float_of_str self get_positions) = Ok positions ->
       exists ids,
         activesymbols (fst (sync_positions_cycle float_of_str self get_positions))
         = PStr "BTC-USDT" :: ids
         /\ Forall2 inst_id_of (filter nonzero_size rows) ids.
Proof.
  split; [|split].
  - unfold sync_positions_cycle.
    destruct (bind get_positions _) as [rows|e]; [|now exists []].
    destruct (for_each _ rows 0 (base_symbols, [])) as [[a p] err] eqn:Hloop.
    apply position_rows_prefix in Hloop. destruct Hloop as (ids & ->).
    now exists ids.
  - unfold sync_positions_cycle.
    destruct (bind get_positions _) as [rows|e]; [|reflexivity].
    now destruct (for_each _ rows 0 (base_symbols, [])) as [[a p] err].
  - intros resp rows positions -> Hrows Hok.
    destruct (sync_positions_cycle_ok self resp rows positions Hrows Hok)
      as (ids & Ha & Hids & _).
    now exists ids.
Qed.


Lemma abs_positive (q : float) :
  is_nan q = false -> (q =? 0)%float = false -> (0 <? abs q)%float = true.
Proof.
  unfold is_nan. rewrite !FloatAxioms.eqb_spec, FloatAxioms.ltb_spec, abs_spec.
  change (Prim2SF 0) with (S754_zero false).
  destruct (Prim2SF q) as [s|s| |s m e]; simpl; try discriminate; reflexivity.
Qed.

(** C8, as the code has it: a cycle hands the repository one record for each
    row whose quantity is not zero and none for the others; the record's
    position_size is the absolute value of the quantity, which is strictly
    positive whenever the quantity is a number (not NaN). *)
Theorem position_size_magnitude (self : BlofinFutures) (resp : pyval)
    (rows : list pyval) (positions : list Position.t) :
  response_rows resp = Ok rows ->
  snd (sync_positions_cycle float_of_str self (Ok resp)) = Ok positions ->
  Forall2 size_is_magnitude (filter nonzero_size rows) positions.
Proof.
  intros Hrows Hok.
  destruct (sync_positions_cycle_ok self resp rows positions Hrows Hok)
    as (ids & _ & _ & Hpos).
  eapply Forall2_impl; [|exact Hpos].
  intros pos p (q & inst_id & Hq & Hz & _ & Hmk).
  apply make_position_fields in Hmk.
  destruct Hmk as (ps & _ & _ & Hsize & _).
  exists q. repeat split; try assumption.
  intros Hnan. rewrite Hsize. now apply abs_positive.
Qed.

(** ** Balance Sync *)

Lemma find_snoc {A : Type} (p : A -> bool) (l : list A) (x : A) :
  find p (l ++ [x]) =
  match find p l with
  | Some y => Some y
  | None => if p x then Some x else None
  end.
Proof.
  induction l as [|y l IH]; simpl; [reflexivity|].
  now destruct (p y).
Qed.

Lemma account_asset_ok (asset : pyval) (tb : float) (ab : list AssetBalance.t)
    (s : float * list AssetBalance.t) :
  account_asset float_of_str asset (tb, ab) = Ok s ->
  exists currency balance_val,
    is_dict asset = true
    /\ py_get asset "currency" (PStr "USDT") = Ok currency
    /\ row_balance asset = Ok balance_val
    /\ s = if py_eq_str currency "USDT" then (balance_val, ab)
           else (tb, (ab ++ [AssetBalance.mk currency balance_val 0%float])%list).
Proof.
  unfold account_asset, row_balance. intros H.
  destruct asset; try discriminate. simpl in H |- *.
  destruct (py_float float_of_str (dict_get d "balance" (PInt 0))) as [b|];
    [simpl in H | discriminate].
  destruct (py_float float_of_str (dict_get d "available" (PInt 0))) as [a|];
    [simpl in H | discriminate].
  exists (dict_get d "currency" (PStr "USDT")), b.
  repeat split. destruct (py_eq_str _ "USDT"); congruence.
Qed.

Lemma account_rows_ok (rows : list pyval) :
  forall i tb0 ab0 tb ab,
    for_each (fun _ asset s => commit (account_asset float_of_str asset s) s)
      rows i (tb0, ab0) = ((tb, ab), None) ->
    forallb is_dict rows = true
    /\ (exists new, ab = (ab0 ++ new)%list
                    /\ Forall2 asset_balance_of (filter is_asset_row rows) new)
    /\ match find is_quote_row (rev rows) with
       | Some asset => row_balance asset = Ok tb
       | None => tb = tb0
       end.
Proof.
  induction rows as [|r rows IH]; intros i tb0 ab0 tb ab H; simpl in H.
  - inversion H; subst. repeat split. exists []. rewrite app_nil_r.
    split; [reflexivity | constructor].
  - destruct (account_asset float_of_str r (tb0, ab0)) as [s1|e] eqn:Hr;
      simpl in H; [|discriminate].
    apply account_asset_ok in Hr.
    destruct Hr as (c & b & Hd & Hc & Hb & ->).
    assert (Hq : is_quote_row r = py_eq_str c "USDT")
      by (unfold is_quote_row; now rewrite Hc).
    simpl forallb. rewrite Hd. simpl rev. rewrite find_snoc.
    simpl filter. unfold is_asset_row at 1. rewrite Hq.
    destruct (py_eq_str c "USDT") eqn:Hu; simpl negb; cbv iota;
      apply IH in H; destruct H as (Hds & (new & -> & Hnew) & Hfind).
    + split; [exact Hds|]. split; [now exists new|].
      destruct (find is_quote_row (rev rows)); [assumption | now subst].
    + split; [exact Hds|]. split.
      * exists (AssetBalance.mk c b 0%float :: new).
        rewrite <- app_assoc. split; [reflexivity|].
        constructor; [|assumption]. now repeat split.
      * destruct (find is_quote_row (rev rows)); assumption.
Qed.

(** What [sync_account_cycle] hands to the repository. *)
Lemma sync_account_cycle_ok (account : pyval) (rows : list pyval)
    (get_positions : result pyval) (balance : Balance.t) :
  has_data account = Ok true ->
  data_rows account = Ok rows ->
  sync_account_cycle float_of_str (Ok account) get_positions = Ok (Some balance) ->
  forallb is_dict rows = true
  /\ Forall2 asset_balance_of (filter is_asset_row rows) (Balance.assets balance)
  /\ match find is_quote_row (rev rows) with
     | Some asset => row_balance asset = Ok (Balance.totalBalance balance)
     | None => Balance.totalBalance balance = 0%float
     end
  /\ Balance.totalUnrealizedProfit balance
     = positions_upnl float_of_str get_positions 0%float.
Proof.
  unfold sync_account_cycle. simpl bind. intros -> Hrows. simpl bind.
  rewrite Hrows. simpl bind.
  destruct (for_each _ rows 0 (0%float, [])) as [[tb ab] err] eqn:Hloop.
  destruct err as [e|]; [discriminate|]. intros [= <-]. simpl.
  apply account_rows_ok in Hloop.
  destruct Hloop as (Hd & (new & -> & Hnew) & Hfind).
  auto.
Qed.

(** C6: the rows whose currency is not USDT become the AssetBalance entries,
    in their order, each with unrealizedProfit 0; totalBalance is the balance
    of the (last) row whose currency is USDT; and on the scenario's response,
    with positions whose unrealizedPnl sums to 5.0, the record emitted is
    totalBalance 100.0, totalUnrealizedProfit 5.0, assets [{BTC, 0.002, 0.0}]. *)
Theorem balance_partition (get_positions : result pyval) :
  (forall account rows balance,
      has_data account = Ok true ->
      data_rows account = Ok rows ->
      sync_account_cycle float_of_str (Ok account) get_positions
      = Ok (Some balance) ->
      Forall2 asset_balance_of (filter is_asset_row rows) (Balance.assets balance)
      /\ match find is_quote_row (rev rows) with
         | Some asset => row_balance asset = Ok (Balance.totalBalance balance)
         | None => Balance.totalBalance balance = 0%float
         end)
  /\ (positions_upnl float_of_str get_positions 0%float = 5%float ->
      sync_account_cycle float_of_str (Ok scenario_account) get_positions
      = Ok (Some scenario_balance)).
Proof.
  split.
  - intros account rows balance Hd Hrows Hok.
    destruct (sync_account_cycle_ok account rows get_positions balance Hd Hrows Hok)
      as (_ & Hassets & Htotal & _).
    now split.
  - intros Hupnl. unfold sync_account_cycle.
    set (u := positions_upnl float_of_str get_positions 0%float) in *.
    clearbody u. subst u. reflexivity.
Qed.

Lemma find_ext_in {A : Type} (p q : A -> bool) (l : list A) :
  (forall x, In x l -> p x = q x) -> find p l = find q l.
Proof.
  induction l as [|x l IH]; intros H; simpl; [reflexivity|].
  rewrite <- (H x (or_introl eq_refl)).
  destruct (p x); [reflexivity|]. apply IH. intros y Hy. apply H. now right.
Qed.

Lemma Forall2_filter_holds {A B : Type} (p : A -> bool) (R : A -> B -> Prop)
    (l : list A) :
  forall l', Forall2 R (filter p l) l' ->
             Forall2 (fun x y => p x = true /\ R x y) (filter p l) l'.
Proof.
  induction l as [|x l IH]; simpl; intros l' H.
  - inversion H; constructor.
  - destruct (p x) eqn:Hp; [|now apply IH].
    inversion H; subst. constructor; [now split | now apply IH].
Qed.

Lemma dict_row_quote (asset : pyval) :
  is_dict asset = true ->
  is_quote_row asset = counts_as_quote asset
  /\ is_asset_row asset = has_other_currency asset.
Proof.
  destruct asset; try discriminate. intros _.
  unfold is_asset_row, is_quote_row, counts_as_quote, has_other_currency.
  simpl. unfold dict_get. now destruct (lookup "currency" d).
Qed.

(** C10: a row without a 'currency' field is treated as the USDT row.  The
    AssetBalance entries are exactly the rows whose 'currency' field is
    present and is not 'USDT'; totalBalance is the balance of the last row
    that either has no 'currency' field or has 'USDT' there. *)
Theorem missing_currency_is_quote (account : pyval) (rows : list pyval)
    (get_positions : result pyval) (balance : Balance.t) :
  has_data account = Ok true ->
  data_rows account = Ok rows ->
  sync_account_cycle float_of_str (Ok account) get_positions = Ok (Some balance) ->
  Forall2 other_currency_entry (filter has_other_currency rows)
    (Balance.assets balance)
  /\ match find counts_as_quote (rev rows) with
     | Some asset => row_balance asset = Ok (Balance.totalBalance balance)
     | None => Balance.totalBalance balance = 0%float
     end.
Proof.
  intros Hd Hrows Hok.
  destruct (sync_account_cycle_ok account rows get_positions balance Hd Hrows Hok)
    as (Hdict & Hassets & Htotal & _).
  rewrite forallb_forall in Hdict.
  split.
  - rewrite (filter_ext_in is_asset_row has_other_currency) in Hassets
      by (intros x Hx; now apply dict_row_quote, Hdict).
    apply Forall2_filter_holds in Hassets.
    eapply Forall2_impl; [|exact Hassets].
    intros asset a (Hp & Hc & _). unfold other_currency_entry.
    unfold has_other_currency in Hp. destruct asset; try discriminate.
    simpl in Hp, Hc |- *. unfold dict_get in Hc.
    destruct (lookup "currency" d) as [c|]; [|discriminate].
    injection Hc as <-. split; [reflexivity|].
    apply py_eq_str_false. now destruct (py_eq_str c "USDT").
  - rewrite <- (find_ext_in is_quote_row counts_as_quote); [exact Htotal|].
    intros x Hx. apply dict_row_quote, Hdict. now apply in_rev.
Qed.

(** ** Open Order Sync *)

Lemma order_row_side (item : pyval) (o : Order.t) :
  order_row float_of_str str_upper item = Ok o ->
  exists s,
    py_get item "side" (PStr "") = Ok (PStr s) /\ Order.side o = str_upper s.
Proof.
  unfold order_row. intros H.
  destruct item; try discriminate. cbn [py_get bind] in H |- *.
  destruct (py_remove_hyphens (dict_get d "instId" (PStr ""))) as [sym|];
    cbn [bind] in H; [|discriminate].
  destruct (py_float float_of_str (dict_get d "price" (PInt 0))) as [pr|];
    cbn [bind] in H; [|discriminate].
  destruct (py_float float_of_str (dict_get d "size" (PInt 0))) as [q|];
    cbn [bind] in H; [|discriminate].
  destruct (dict_get d "side" (PStr "")) as [| | | |s| |]; try discriminate.
  cbn [py_upper bind] in H.
  destruct (py_upper str_upper (dict_get d "orderType" (PStr "limit")));
    cbn [bind] in H; [|discriminate].
  injection H as <-. exists s. simpl.
  split; [reflexivity | now destruct ((str_upper s =? "BUY") || _)].
Qed.

Lemma order_rows_ok (rows : list pyval) :
  forall i orders0 orders,
    for_each (fun _ item orders =>
                commit (o <- order_row float_of_str str_upper item ;; Ok (orders ++ [o])%list)
                  orders)
      rows i orders0 = (orders, None) ->
    exists new, orders = (orders0 ++ new)%list
                /\ Forall2 (fun item o => order_row float_of_str str_upper item = Ok o) rows new.
Proof.
  induction rows as [|r rows IH]; intros i orders0 orders H; simpl in H.
  - inversion H; subst. exists []. rewrite app_nil_r. split; [reflexivity | constructor].
  - destruct (order_row float_of_str str_upper r) as [o|e] eqn:Hr; simpl in H; [|discriminate].
    apply IH in H. destruct H as (new & -> & Hnew).
    exists (o :: new). rewrite <- app_assoc. split; [reflexivity|].
    now constructor.
Qed.

(** C5, as the code has it: a cycle hands the repository one order per
    active-order row, in order, whose side is the row's side string
    uppercased by [str.upper] -- for a side of ASCII characters, that string
    with a-z turned into A-Z; that side is BUY or SELL exactly when the
    uppercased string is, and any other string is passed on uppercased. *)
Theorem order_side_uppercased (resp : pyval) (rows : list pyval)
    (orders : list Order.t) :
  upper_on_ascii ->
  response_rows resp = Ok rows ->
  sync_open_orders_cycle float_of_str str_upper (Ok resp) = Ok orders ->
  Forall2 side_uppercased rows orders.
Proof.
  unfold sync_open_orders_cycle. intros Hup. simpl bind. intros ->. simpl bind.
  destruct (for_each _ rows 0 []) as [os err] eqn:Hloop.
  destruct err as [e|]; [discriminate|]. intros [= ->].
  apply order_rows_ok in Hloop. destruct Hloop as (new & -> & Hnew).
  simpl. eapply Forall2_impl; [|exact Hnew].
  intros item o Ho. apply order_row_side in Ho. destruct Ho as (s & Hs & Hside).
  exists s. rewrite Hside. split; [exact Hs|]. split; [reflexivity|].
  split; [apply Hup | reflexivity].
Qed.

(** ** Trade / Income History Sync *)

Lemma trade_row_ok (now : Z) (trade : pyval) (inc0 inc1 : list Income.t)
    (cur0 cur1 : pyval) :
  trade_row float_of_str int_of_str now trade (inc0, cur0) = Ok (inc1, cur1) ->
  cur1 = cursor_step cur0 trade
  /\ if yields_income trade
     then exists inc, inc1 = (inc0 ++ [inc])%list /\ income_of trade inc
     else inc1 = inc0.
Proof.
  unfold trade_row, cursor_step, advances, yields_income, income_of, is_filled,
    row_pnl, row_fee.
  destruct trade; try discriminate. cbn [py_get bind fst snd].
  destruct (py_eq_str (dict_get d "state" (PStr "")) "filled");
    cbn [negb andb]; [|now intros [= <- <-]].
  destruct (py_float float_of_str (dict_get d "pnl" (PInt 0))) as [pnl|];
    cbn [bind]; [|discriminate].
  destruct (py_float float_of_str (dict_get d "fee" (PInt 0))) as [fee|];
    cbn [bind]; [|discriminate].
  destruct (pnl =? 0)%float; cbn [negb bind].
  - intros [= <- <-]. split; [|reflexivity].
    now destruct (truthy (dict_get d "orderId" PNone)).
  - destruct (py_remove_hyphens (dict_get d "instId" (PStr ""))) as [sym|];
      cbn [bind]; [|discriminate].
    destruct (py_int int_of_str (dict_get d "updateTime" (PInt now))) as [ts|];
      cbn [bind]; [|discriminate].
    intros [= <- <-]. split.
    + now destruct (truthy (dict_get d "orderId" PNone)).
    + eexists. split; [reflexivity|]. exists pnl, fee. simpl. auto.
Qed.

Lemma trade_rows_ok (clock : nat -> Z) (rows : list pyval) :
  forall i inc0 cur0 inc cur,
    for_each (fun i trade s =>
                commit (trade_row float_of_str int_of_str (clock i) trade s) s)
      rows i (inc0, cur0) = ((inc, cur), None) ->
    cur = fold_left cursor_step rows cur0
    /\ exists new, inc = (inc0 ++ new)%list
                   /\ Forall2 income_of (filter yields_income rows) new.
Proof.
  induction rows as [|r rows IH]; intros i inc0 cur0 inc cur H; simpl in H.
  - inversion H; subst. split; [reflexivity|]. exists [].
    rewrite app_nil_r. split; [reflexivity | constructor].
  - destruct (trade_row float_of_str int_of_str (clock i) r (inc0, cur0))
      as [[inc1 cur1]|e] eqn:Hr; simpl in H; [|discriminate].
    apply trade_row_ok in Hr. destruct Hr as (-> & Hinc).
    apply IH in H. destruct H as (-> & new & -> & Hnew).
    split; [reflexivity|]. simpl filter.
    destruct (yields_income r).
    + destruct Hinc as (x & -> & Hx). exists (x :: new).
      rewrite <- app_assoc. split; [reflexivity | now constructor].
    + subst inc1. now exists new.
Qed.

Lemma cursor_fold_stays (rows : list pyval) (c : pyval) :
  forallb (fun trade => negb (advances trade)) rows = true ->
  fold_left cursor_step rows c = c.
Proof.
  revert c. induction rows as [|r rows IH]; intros c H; simpl in *; [reflexivity|].
  apply andb_true_iff in H as [Hr Hrows].
  rewrite IH by assumption. unfold cursor_step.
  now destruct (advances r).
Qed.

Lemma cursor_fold_last (pre post : list pyval) (r c : pyval) :
  advances r = true ->
  forallb (fun trade => negb (advances trade)) post = true ->
  py_get r "orderId" PNone = Ok (fold_left cursor_step (pre ++ r :: post) c).
Proof.
  intros Hr Hpost. rewrite fold_left_app. simpl.
  rewrite cursor_fold_stays by assumption.
  unfold cursor_step. rewrite Hr.
  unfold advances in Hr. apply andb_true_iff in Hr as [_ Hid].
  now destruct (py_get r "orderId" PNone).
Qed.

(** What a cycle that fetched the page [rows] leaves behind. *)
Lemma sync_trades_cycle_ok (last_synced_id : pyval)
    (get_order_history : list (string * pyval) -> result pyval)
    (clock : nat -> Z) (resp : pyval) (rows : list pyval) (cursor : pyval)
    (out : option (list Income.t)) :
  get_order_history (order_history_params last_synced_id) = Ok resp ->
  has_data resp = Ok true ->
  data_rows resp = Ok rows ->
  sync_trades_cycle float_of_str int_of_str last_synced_id get_order_history clock
  = (cursor, Ok out) ->
  cursor = fold_left cursor_step rows last_synced_id
  /\ Forall2 income_of (filter yields_income rows) (incomes_given out).
Proof.
  unfold sync_trades_cycle, sync_trades_page. intros -> . cbn [bind].
  intros -> . cbn [bind]. intros -> . cbn [bind].
  destruct (for_each _ rows 0 ([], last_synced_id)) as [[inc cur] err] eqn:Hloop.
  destruct err as [e|]; [discriminate|]. intros [= <- <-].
  apply trade_rows_ok in Hloop. destruct Hloop as (-> & new & -> & Hnew).
  split; [reflexivity|]. simpl. now destruct new.
Qed.

(** C1, as the code has it: after a page is processed, the cursor is the
    orderId of the last row of the page that is filled and has an order id
    set, and it is unchanged when the page has no such row; the rows' PnL
    plays no part, so a page of zero-PnL fills advances the cursor too. *)
Theorem cursor_after_page (last_synced_id : pyval)
    (get_order_history : list (string * pyval) -> result pyval)
    (clock : nat -> Z) (resp : pyval) (rows : list pyval) (cursor : pyval)
    (out : option (list Income.t)) :
  get_order_history (order_history_params last_synced_id) = Ok resp ->
  has_data resp = Ok true ->
  data_rows resp = Ok rows ->
  sync_trades_cycle float_of_str int_of_str last_synced_id get_order_history clock
  = (cursor, Ok out) ->
  cursor_is_last_advancing rows last_synced_id cursor.
Proof.
  intros Hresp Hd Hrows Hcycle.
  destruct (sync_trades_cycle_ok _ _ _ _ _ _ _ Hresp Hd Hrows Hcycle) as (-> & _).
  split.
  - intros pre trade post -> Hadv Hpost. now apply cursor_fold_last.
  - intros Hnone. now apply cursor_fold_stays.
Qed.

(** C4: the incomes a cycle hands to the repository are, in order, one for
    each row of the page that is filled and has a non-zero pnl, with amount
    pnl + fee; a row that is not filled, and a filled row whose pnl is zero,
    give none. *)
Theorem income_per_filled_row (last_synced_id : pyval)
    (get_order_history : list (string * pyval) -> result pyval)
    (clock : nat -> Z) (resp : pyval) (rows : list pyval) (cursor : pyval)
    (out : option (list Income.t)) :
  get_order_history (order_history_params last_synced_id) = Ok resp ->
  has_data resp = Ok true ->
  data_rows resp = Ok rows ->
  sync_trades_cycle float_of_str int_of_str last_synced_id get_order_history clock
  = (cursor, Ok out) ->
  Forall2 income_of (filter yields_income rows) (incomes_given out).
Proof.
  intros Hresp Hd Hrows Hcycle.
  destruct (sync_trades_cycle_ok _ _ _ _ _ _ _ Hresp Hd Hrows Hcycle) as (_ & H).
  exact H.
Qed.

(** ** Tick Sync *)

Lemma tick_passes (get_tickers : pyval -> result pyval) (clock : nat -> Z)
    (syms : list pyval) :
  forall i ticks0 ticks err,
    for_each (tick_pass float_of_str int_of_str get_tickers clock) syms i ticks0
    = (ticks, err) ->
    err = None
    /\ forall tick,
         In tick ticks <->
         In tick ticks0
         \/ exists k sym,
              nth_error syms k = Some sym
              /\ fetch_tick float_of_str int_of_str get_tickers (clock (i + k)) sym
                 = Ok (Some tick).
Proof.
  induction syms as [|sym syms IH]; intros i ticks0 ticks err H; simpl in H.
  - inversion H; subst. split; [reflexivity|]. intros tick. split; [now left|].
    intros [Hin | (k & s & Hk & _)]; [assumption | now destruct k].
  - unfold tick_pass in H at 1.
    destruct (fetch_tick float_of_str int_of_str get_tickers (clock i) sym)
      as [[t|]|e] eqn:Hf;
      apply IH in H; destruct H as (-> & Hticks); (split; [reflexivity|]);
      intros tick; rewrite Hticks; clear Hticks.
    + rewrite in_app_iff. simpl. split.
      * intros [[Hin | [<- | []]] | (k & s & Hk & Hs)].
        -- now left.
        -- right. exists 0, sym. rewrite Nat.add_0_r. now split.
        -- right. exists (S k), s. now rewrite Nat.add_succ_r.
      * intros [Hin | (k & s & Hk & Hs)]; [now left; left|].
        destruct k as [|k]; simpl in Hk.
        -- injection Hk as <-. rewrite Nat.add_0_r, Hf in Hs.
           injection Hs as <-. left; right; now left.
        -- right. exists k, s. now rewrite Nat.add_succ_r in Hs.
    + split.
      * intros [Hin | (k & s & Hk & Hs)]; [now left|].
        right. exists (S k), s. now rewrite Nat.add_succ_r.
      * intros [Hin | (k & s & Hk & Hs)]; [now left|].
        destruct k as [|k]; simpl in Hk.
        -- injection Hk as <-. rewrite Nat.add_0_r, Hf in Hs. discriminate.
        -- right. exists k, s. now rewrite Nat.add_succ_r in Hs.
    + split.
      * intros [Hin | (k & s & Hk & Hs)]; [now left|].
        right. exists (S k), s. now rewrite Nat.add_succ_r.
      * intros [Hin | (k & s & Hk & Hs)]; [now left|].
        destruct k as [|k]; simpl in Hk.
        -- injection Hk as <-. rewrite Nat.add_0_r, Hf in Hs. discriminate.
        -- right. exists k, s. now rewrite Nat.add_succ_r in Hs.
Qed.

(** C9: once the symbols to fetch are known, the cycle completes whatever
    the single fetches do, and the ticks it emits are exactly those of the
    symbols whose own fetch succeeded: a symbol whose fetch raises is
    skipped, and takes no other symbol's tick with it. *)
Theorem tick_failure_isolated (self : BlofinFutures) (symbol : string)
    (get_tickers : pyval -> result pyval) (clock : nat -> Z)
    (syms : list pyval) :
  symbols_to_fetch list_of_set self symbol = Ok syms ->
  exists ticks,
    sync_current_price_cycle float_of_str int_of_str list_of_set self symbol
      get_tickers clock = Ok ticks
    /\ forall tick,
         In tick ticks <-> exists k, tick_from get_tickers clock syms k tick.
Proof.
  intros Hsyms. unfold sync_current_price_cycle. rewrite Hsyms. cbn [bind].
  destruct (for_each _ syms 0 []) as [ticks err] eqn:Hloop.
  apply tick_passes in Hloop. destruct Hloop as (-> & Hticks).
  exists ticks. split; [reflexivity|].
  intros tick. rewrite Hticks. unfold tick_from. simpl. split.
  - intros [[] | (k & s & Hk & Hs)]. now exists k, s.
  - intros (k & s & Hk & Hs). right. now exists k, s.
Qed.

(** * Further properties of the code *)

(** ** Loops *)

Lemma for_each_app {S : Type} (body : nat -> pyval -> S -> S * option exn)
    (pre post : list pyval) :
  forall i s,
    for_each body (pre ++ post) i s =
    match for_each body pre i s with
    | (s', None) => for_each body post (i + List.length pre) s'
    | (s', Some e) => (s', Some e)
    end.
Proof.
  induction pre as [|r pre IH]; intros i s; simpl.
  - now rewrite Nat.add_0_r.
  - destruct (body i r s) as [s' [e|]]; [reflexivity|].
    rewrite IH. now rewrite Nat.add_succ_r.
Qed.

Lemma for_each_invariant {S : Type} (P : S -> Prop)
    (body : nat -> pyval -> S -> S * option exn) :
  (forall i r s, P s -> P (fst (body i r s))) ->
  forall rows i s, P s -> P (fst (for_each body rows i s)).
Proof.
  intros Hbody. induction rows as [|r rows IH]; intros i s Hs; simpl; [assumption|].
  specialize (Hbody i r s Hs).
  destruct (body i r s) as [s' [e|]]; simpl in *; [assumption | now apply IH].
Qed.

(** A loop whose passes assign only at their end stops at the first pass
    that raises, with the variables as the passes before it left them. *)
Lemma for_each_commit_raise {S : Type} (f : nat -> pyval -> S -> result S)
    (pre post : list pyval) (r : pyval) (i : nat) (s s1 : S) (e : exn) :
  for_each (fun i r s => commit (f i r s) s) pre i s = (s1, None) ->
  f (i + List.length pre) r s1 = Raise e ->
  for_each (fun i r s => commit (f i r s) s) (pre ++ r :: post) i s = (s1, Some e).
Proof.
  intros Hpre Hr. rewrite for_each_app, Hpre. simpl. now rewrite Hr.
Qed.

(** ** Symbol normalizer, further *)

Lemma string_app_assoc (a b c : string) : (a ++ b) ++ c = a ++ (b ++ c).
Proof. induction a as [|x a IH]; simpl; [reflexivity | now rewrite IH]. Qed.

Lemma substring_split (s : string) :
  forall n, n <= String.length s ->
            s = substring 0 n s ++ substring n (String.length s - n) s.
Proof.
  induction s as [|c s IH]; intros n Hn; simpl in Hn.
  - now destruct n.
  - destruct n as [|n]; simpl.
    + now rewrite substring_all.
    + rewrite <- IH by lia. reflexivity.
Qed.

Lemma endswith_split (s suffix : string) :
  endswith s suffix = true ->
  s = drop_last (String.length suffix) s ++ suffix.
Proof.
  unfold endswith, drop_last. intros H.
  apply andb_true_iff in H as [Hle Heq].
  apply Nat.leb_le in Hle. apply String.eqb_eq in Heq.
  rewrite (substring_split s (String.length s - String.length suffix)) at 1 by lia.
  replace (String.length s - (String.length s - String.length suffix))
    with (String.length suffix) by lia.
  now rewrite Heq.
Qed.

Lemma remove_hyphens_clean (s : string) :
  contains_hyphen (remove_hyphens s) = false.
Proof.
  induction s as [|c s IH]; simpl; [reflexivity|].
  destruct (Ascii.eqb c hyphen) eqn:Hc; simpl; [assumption|].
  now rewrite Hc.
Qed.

Lemma to_blofin_keeps_internal_form_aux (symbol : string) :
  remove_hyphens (_to_blofin_symbol symbol) = remove_hyphens symbol.
Proof.
  unfold _to_blofin_symbol.
  destruct (endswith symbol "USDT") eqn:Ht.
  - apply endswith_split in Ht. simpl String.length in Ht.
    rewrite Ht at 2. now rewrite !remove_hyphens_app.
  - destruct (endswith symbol "USDC") eqn:Hc; [|reflexivity].
    apply endswith_split in Hc. simpl String.length in Hc.
    rewrite Hc at 2. now rewrite !remove_hyphens_app.
Qed.

(** X1: converting a symbol to the exchange format never changes what it
    normalizes to: for every string, removing the hyphens after
    [_to_blofin_symbol] gives the same as removing them before. *)
Theorem to_blofin_keeps_internal_form (symbol : string) :
  remove_hyphens (_to_blofin_symbol symbol) = remove_hyphens symbol.
Proof. exact (to_blofin_keeps_internal_form_aux symbol). Qed.

(** X2: [_to_blofin_symbol] does not recognise a symbol that is already in
    the exchange format: BASE-USDT and BASE-USDC come back with a second
    hyphen, so the function is not idempotent on its own results. *)
Theorem to_blofin_adds_hyphen_again (base : string) :
  _to_blofin_symbol (base ++ "-USDT") = base ++ "--USDT"
  /\ _to_blofin_symbol (base ++ "-USDC") = base ++ "--USDC"
  /\ _to_blofin_symbol (_to_blofin_symbol (base ++ "USDT"))
     <> _to_blofin_symbol (base ++ "USDT").
Proof.
  assert (Ht : _to_blofin_symbol (base ++ "-USDT") = base ++ "--USDT").
  { change (base ++ "-USDT") with (base ++ ("-" ++ "USDT")).
    rewrite <- string_app_assoc, to_blofin_usdt. now rewrite string_app_assoc. }
  split; [exact Ht|]. split.
  - change (base ++ "-USDC") with (base ++ ("-" ++ "USDC")).
    rewrite <- string_app_assoc, to_blofin_usdc. now rewrite string_app_assoc.
  - rewrite to_blofin_usdt, Ht. intros H.
    apply (f_equal String.length) in H. rewrite !length_app in H.
    simpl in H. lia.
Qed.

(** X3: the internal format holds no hyphen: [s.replace('-', '')] leaves
    none, and applying it again changes nothing. *)
Theorem remove_hyphens_normal_form (s : string) :
  contains_hyphen (remove_hyphens s) = false
  /\ remove_hyphens (remove_hyphens s) = remove_hyphens s.
Proof.
  split; [apply remove_hyphens_clean|].
  apply remove_hyphens_id, remove_hyphens_clean.
Qed.

(** ** Start-up *)

Lemma has_data_true (resp : pyval) :
  has_data resp = Ok true <->
  truthy resp = true /\ py_contains "data" resp = Ok true.
Proof.
  unfold has_data. destruct (truthy resp); split.
  - now intros H.
  - now intros [_ H].
  - discriminate.
  - now intros [H _].
Qed.

(** X4: [__init__] builds the object only when the login check's balance
    request returns a truthy answer that contains 'data'; the object then
    tracks the symbols given and has no active symbol.  Every other outcome
    of the check -- an exception of the request, a falsy answer, an answer
    without 'data', an answer on which the test itself raises -- ends in
    [SystemExit]. *)
Theorem init_login_check (syms : list string) (get_balance : result pyval) :
  (forall self,
      __init__ syms get_balance = Started self <->
      self = {| symbols := syms; activesymbols := [] |}
      /\ exists test,
           get_balance = Ok test /\ truthy test = true
           /\ py_contains "data" test = Ok true)
  /\ (__init__ syms get_balance = SystemExit <->
      forall test, get_balance = Ok test -> has_data test <> Ok true).
Proof.
  unfold __init__. destruct get_balance as [test|e]; simpl.
  - destruct (has_data test) as [[|]|e] eqn:Hd; split.
    + intros self. split.
      * intros [= <-]. split; [reflexivity|]. exists test.
        now apply has_data_true in Hd.
      * now intros [-> _].
    + split; [discriminate|]. intros H. now specialize (H test eq_refl).
    + intros self. split; [discriminate|].
      intros [_ (t & [= <-] & Ht & Hc)].
      assert (has_data test = Ok true) by now apply has_data_true.
      congruence.
    + split; [|reflexivity]. intros _ t [= <-]. congruence.
    + intros self. split; [discriminate|].
      intros [_ (t & [= <-] & Ht & Hc)].
      assert (has_data test = Ok true) by now apply has_data_true.
      congruence.
    + split; [|reflexivity]. intros _ t [= <-]. congruence.
  - split.
    + intros self. split; [discriminate|]. intros [_ (t & Ht & _)]. discriminate.
    + split; [|reflexivity]. intros _ t Ht. discriminate.
Qed.

(** ** Balance Sync, further *)

(** X5: the positions request is best effort.  What a balance cycle does
    with it is what it does when that request fails, with only the total of
    unrealized profit filled in: whether a Balance is emitted, its
    totalBalance and its assets do not depend on the positions request, and
    when that request raises the total is 0.0. *)
Theorem balance_survives_positions_failure
    (get_balance get_positions : result pyval) :
  sync_account_cycle float_of_str get_balance get_positions =
  match sync_account_cycle float_of_str get_balance (Raise GatewayError) with
  | Ok (Some b) =>
      Ok (Some (Balance.mk (Balance.totalBalance b)
                  (positions_upnl float_of_str get_positions 0%float)
                  (Balance.assets b)))
  | Ok None => Ok None
  | Raise e => Raise e
  end
  /\ forall e b,
       sync_account_cycle float_of_str get_balance (Raise e) = Ok (Some b) ->
       Balance.totalUnrealizedProfit b = 0%float.
Proof.
  unfold sync_account_cycle. split.
  - destruct get_balance as [account|e]; [|reflexivity]. cbn [bind].
    destruct (has_data account) as [[|]|e]; try reflexivity. cbn [bind].
    destruct (data_rows account) as [rows|e]; [|reflexivity]. cbn [bind].
    now destruct (for_each _ rows 0 (0%float, [])) as [[tb ab] [e|]].
  - intros e b.
    destruct get_balance as [account|e']; [|discriminate]. cbn [bind].
    destruct (has_data account) as [[|]|e']; try discriminate. cbn [bind].
    destruct (data_rows account) as [rows|e']; [|discriminate]. cbn [bind].
    destruct (for_each _ rows 0 (0%float, [])) as [[tb ab] [e'|]];
      [discriminate|].
    now intros [= <-].
Qed.

(** X6: a position row whose unrealizedPnl cannot be converted ends the
    summation without failing it: the total is the sum over the rows before
    that row, and the rows after it are not counted. *)
Theorem upnl_sum_stops_at_bad_row (resp resp_before : pyval)
    (pre post : list pyval) (bad : pyval) (e : exn) (total_upnl : float) :
  has_data resp = Ok true ->
  data_rows resp = Ok (pre ++ bad :: post)%list ->
  has_data resp_before = Ok true ->
  data_rows resp_before = Ok pre ->
  row_upnl bad = Raise e ->
  positions_upnl float_of_str (Ok resp) total_upnl
  = positions_upnl float_of_str (Ok resp_before) total_upnl.
Proof.
  unfold positions_upnl. intros -> -> -> -> Hbad.
  rewrite for_each_app.
  destruct (for_each _ pre 0 total_upnl) as [t [e'|]]; [reflexivity|].
  simpl. unfold upnl_row. unfold row_upnl in Hbad.
  destruct (py_get bad "unrealizedPnl" (PInt 0)) as [u|e'];
    cbn [bind] in Hbad |- *; [|reflexivity].
  now rewrite Hbad.
Qed.

Lemma filter_partition_length {A : Type} (p : A -> bool) (l : list A) :
  List.length (filter p l) + List.length (filter (fun x => negb (p x)) l)
  = List.length l.
Proof.
  induction l as [|x l IH]; simpl; [reflexivity|].
  destruct (p x); simpl; lia.
Qed.

Lemma Forall2_same_length {A B : Type} (R : A -> B -> Prop) (l : list A)
    (l' : list B) :
  Forall2 R l l' -> List.length l = List.length l'.
Proof. induction 1; simpl; congruence. Qed.

(** X7: every row of the balance response is accounted for: the rows split
    into those that count as the quote currency and those that become
    AssetBalance entries, one entry each. *)
Theorem balance_rows_accounted (account : pyval) (rows : list pyval)
    (get_positions : result pyval) (balance : Balance.t) :
  has_data account = Ok true ->
  data_rows account = Ok rows ->
  sync_account_cycle float_of_str (Ok account) get_positions = Ok (Some balance) ->
  List.length (filter is_quote_row rows) + List.length (Balance.assets balance)
  = List.length rows.
Proof.
  intros Hd Hrows Hok.
  destruct (sync_account_cycle_ok account rows get_positions balance Hd Hrows Hok)
    as (_ & Hassets & _).
  apply Forall2_same_length in Hassets. rewrite <- Hassets.
  apply filter_partition_length.
Qed.

(** X8: the 'available' field of a row is converted although it is never
    used: when the rows before convert and a row's 'available' does not,
    the cycle raises that exception and emits no Balance, whatever the
    other fields of the row and whatever the positions request returns. *)
Theorem balance_fails_on_unused_available (account : pyval)
    (pre post : list pyval) (d : list (string * pyval)) (b : float) (e : exn)
    (get_positions : result pyval) :
  has_data account = Ok true ->
  data_rows account = Ok (pre ++ PDict d :: post)%list ->
  snd (account_loop pre) = None ->
  py_float float_of_str (dict_get d "balance" (PInt 0)) = Ok b ->
  py_float float_of_str (dict_get d "available" (PInt 0)) = Raise e ->
  sync_account_cycle float_of_str (Ok account) get_positions = Raise e.
Proof.
  unfold sync_account_cycle, account_loop. cbn [bind].
  intros -> -> Hpre Hb Ha. cbn [bind].
  destruct (for_each _ pre 0 (0%float, [])) as [s1 err] eqn:Hloop.
  simpl in Hpre. subst err. destruct s1 as [tb ab].
  rewrite (for_each_commit_raise
             (fun _ asset s => account_asset float_of_str asset s)
             pre post (PDict d) 0 _ (tb, ab) e Hloop); [reflexivity|].
  unfold account_asset. cbn [py_get bind]. now rewrite Hb, Ha.
Qed.

(** ** Position Sync, further *)

Lemma Forall2_join {A B C : Type} (R1 : A -> B -> Prop) (R2 : A -> C -> Prop)
    (R : B -> C -> Prop) (l : list A) :
  (forall x y z, R1 x y -> R2 x z -> R y z) ->
  forall lb lc, Forall2 R1 l lb -> Forall2 R2 l lc -> Forall2 R lb lc.
Proof.
  intros HR. induction l as [|x l IH]; intros lb lc H1 H2;
    inversion H1; subst; inversion H2; subst; constructor; eauto.
Qed.

Lemma Forall2_right {A B : Type} (R : A -> B -> Prop) (P : B -> Prop)
    (l : list A) (l' : list B) :
  (forall x y, R x y -> P y) -> Forall2 R l l' -> Forall P l'.
Proof. intros HP. induction 1; constructor; eauto. Qed.

Lemma py_remove_hyphens_ok (id : pyval) (symbol : string) :
  py_remove_hyphens id = Ok symbol ->
  normalizes_to id symbol /\ contains_hyphen symbol = false.
Proof.
  destruct id; try discriminate. simpl. intros [= <-].
  split; [now exists s | apply remove_hyphens_clean].
Qed.

(** X9: after a cycle that completes, the active symbols behind the fixed
    first entry and the positions handed to the repository correspond one to
    one, in order: each position's symbol is the corresponding instrument
    id, a string, without its hyphens, and so holds no hyphen. *)
Theorem active_symbols_match_positions (self : BlofinFutures) (resp : pyval)
    (rows : list pyval) (positions : list Position.t) :
  response_rows resp = Ok rows ->
  snd (sync_positions_cycle float_of_str self (Ok resp)) = Ok positions ->
  exists ids,
    activesymbols (fst (sync_positions_cycle float_of_str self (Ok resp)))
    = PStr "BTC-USDT" :: ids
    /\ Forall2 (fun id p => normalizes_to id (Position.symbol p)) ids positions
    /\ Forall (fun p => contains_hyphen (Position.symbol p) = false) positions.
Proof.
  intros Hrows Hok.
  destruct (sync_positions_cycle_ok self resp rows positions Hrows Hok)
    as (ids & Ha & Hids & Hpos).
  exists ids. split; [exact Ha|]. split.
  - eapply Forall2_join; [|exact Hids|exact Hpos].
    intros pos id p Hid (q & inst_id & _ & _ & Hi & Hmk).
    unfold inst_id_of in Hid. rewrite Hid in Hi. injection Hi as <-.
    apply make_position_fields in Hmk. destruct Hmk as (_ & _ & _ & _ & Hsym).
    now apply py_remove_hyphens_ok in Hsym.
  - eapply Forall2_right; [|exact Hpos].
    intros pos p (q & inst_id & _ & _ & _ & Hmk).
    apply make_position_fields in Hmk. destruct Hmk as (_ & _ & _ & _ & Hsym).
    now apply py_remove_hyphens_ok in Hsym.
Qed.

Lemma position_cycle_raise (self : BlofinFutures) (resp : pyval)
    (pre post : list pyval) (r id : pyval) (q : float) (e : exn)
    (a : list pyval) (p : list Position.t) :
  response_rows resp = Ok (pre ++ r :: post)%list ->
  position_loop pre = ((a, p), None) ->
  row_quantity float_of_str r = Ok q ->
  (q =? 0)%float = false ->
  py_get r "instId" (PStr "") = Ok id ->
  make_position float_of_str r id q = Raise e ->
  sync_positions_cycle float_of_str self (Ok resp)
  = ({| symbols := symbols self; activesymbols := (a ++ [id])%list |}, Raise e).
Proof.
  unfold sync_positions_cycle, position_loop. cbn [bind].
  intros -> Hpre Hq Hz Hid Hmk.
  rewrite for_each_app, Hpre. simpl.
  unfold position_row at 1. now rewrite Hq, Hz, Hid, Hmk.
Qed.

(** X10: a position row is entered into the active symbols before its
    record is built.  When the rows before it pass and the record of a row
    of non-zero size cannot be built, the cycle raises and hands the
    repository nothing, yet the active symbols already hold the ids of the
    rows before and the id of that row. *)
Theorem positions_failure_partial_update (self : BlofinFutures) (resp : pyval)
    (pre post : list pyval) (r id : pyval) (q : float) (e : exn)
    (a : list pyval) (p : list Position.t) :
  response_rows resp = Ok (pre ++ r :: post)%list ->
  position_loop pre = ((a, p), None) ->
  row_quantity float_of_str r = Ok q ->
  (q =? 0)%float = false ->
  py_get r "instId" (PStr "") = Ok id ->
  make_position float_of_str r id q = Raise e ->
  snd (sync_positions_cycle float_of_str self (Ok resp)) = Raise e
  /\ activesymbols (fst (sync_positions_cycle float_of_str self (Ok resp)))
     = (a ++ [id])%list.
Proof.
  intros Hrows Hpre Hq Hz Hid Hmk.
  now rewrite (position_cycle_raise self resp pre post r id q e a p).
Qed.

(** X11: one position row can stop Tick Sync.  When a row of non-zero size
    has an instrument id that is a list or a dict, Position Sync leaves that
    id among the active symbols, and every Tick Sync cycle run on that state
    raises [TypeError] before it fetches any ticker. *)
Theorem unhashable_inst_id_stops_ticks (self : BlofinFutures) (resp : pyval)
    (pre post : list pyval) (r id : pyval) :
  response_rows resp = Ok (pre ++ r :: post)%list ->
  snd (position_loop pre) = None ->
  nonzero_size r = true ->
  py_get r "instId" (PStr "") = Ok id ->
  hashable id = false ->
  forall symbol get_tickers clock,
    sync_current_price_cycle float_of_str int_of_str list_of_set
      (fst (sync_positions_cycle float_of_str self (Ok resp)))
      symbol get_tickers clock
    = Raise TypeError.
Proof.
  intros Hrows Hpre Hnz Hid Hh symbol get_tickers clock.
  destruct (position_loop pre) as [[a p] err] eqn:Hloop.
  simpl in Hpre. subst err.
  unfold nonzero_size in Hnz.
  destruct (row_quantity float_of_str r) as [q|] eqn:Hq; [|discriminate].
  apply negb_true_iff in Hnz.
  assert (Hmk : make_position float_of_str r id q = Raise AttributeError).
  { unfold make_position. destruct r; try discriminate. cbn [py_get bind].
    now destruct id. }
  rewrite (position_cycle_raise self resp pre post r id q AttributeError a p)
    by assumption.
  unfold sync_current_price_cycle, symbols_to_fetch. simpl activesymbols.
  rewrite !forallb_app. simpl forallb. rewrite Hh.
  now rewrite andb_false_r.
Qed.

(** ** Open Order Sync, further *)

Lemma order_row_fields (item : pyval) (o : Order.t) :
  order_row float_of_str str_upper item = Ok o ->
  order_position_side_resolved item o
  /\ exists inst_id order_type,
       py_get item "instId" (PStr "") = Ok inst_id
       /\ normalizes_to inst_id (Order.symbol o)
       /\ py_get item "orderType" (PStr "limit") = Ok (PStr order_type)
       /\ Order.type o = str_upper order_type.
Proof.
  unfold order_row, order_position_side_resolved.
  intros H. destruct item; try discriminate. cbn [py_get bind] in H |- *.
  destruct (py_remove_hyphens (dict_get d "instId" (PStr ""))) as [sym|] eqn:Hsym;
    cbn [bind] in H; [|discriminate].
  destruct (py_float float_of_str (dict_get d "price" (PInt 0))) as [pr|];
    cbn [bind] in H; [|discriminate].
  destruct (py_float float_of_str (dict_get d "size" (PInt 0))) as [q|];
    cbn [bind] in H; [|discriminate].
  destruct (py_upper str_upper (dict_get d "side" (PStr ""))) as [sd|];
    cbn [bind] in H; [|discriminate].
  destruct (dict_get d "orderType" (PStr "limit")) as [| | | |t| |] eqn:Ht;
    try discriminate.
  cbn [py_upper bind] in H. injection H as <-. cbn [Order.position_side
    Order.side Order.symbol Order.type].
  assert (Hside : (if (sd =? "BUY") || ((sd =? "SELL") || false) then sd else sd)
                  = sd)
    by now destruct ((sd =? "BUY") || ((sd =? "SELL") || false)).
  rewrite Hside. split.
  - exists (dict_get d "positionSide" (PStr "net")).
    split; [reflexivity|]. repeat split.
    + now intros ->.
    + now intros ->.
    + intros Hl Hs. apply py_eq_str_false in Hl, Hs. now rewrite Hl, Hs.
  - exists (dict_get d "instId" (PStr "")), t.
    split; [reflexivity|]. split; [|now split].
    now apply py_remove_hyphens_ok in Hsym.
Qed.

(** X12: in the orders a cycle hands to the repository, the position side
    is LONG for a row whose positionSide is "long" and SHORT for one whose
    positionSide is "short"; for any other value it follows the emitted
    side: LONG when that is BUY, SHORT for every other side. *)
Theorem order_position_side (resp : pyval) (rows : list pyval)
    (orders : list Order.t) :
  response_rows resp = Ok rows ->
  sync_open_orders_cycle float_of_str str_upper (Ok resp) = Ok orders ->
  Forall2 order_position_side_resolved rows orders.
Proof.
  unfold sync_open_orders_cycle. cbn [bind]. intros ->. cbn [bind].
  destruct (for_each _ rows 0 []) as [os err] eqn:Hloop.
  destruct err as [e|]; [discriminate|]. intros [= ->].
  apply order_rows_ok in Hloop. destruct Hloop as (new & -> & Hnew).
  simpl. eapply Forall2_impl; [|exact Hnew].
  intros item o Ho. now apply order_row_fields in Ho.
Qed.

(** X13: a completed cycle hands the repository exactly one order per row,
    none left out, in order; the order's symbol is the row's instrument id
    without hyphens and its type is the row's order type uppercased by
    [str.upper] -- for an order type of ASCII characters, that string with
    a-z turned into A-Z -- and LIMIT when the row has none. *)
Theorem order_per_row (resp : pyval) (rows : list pyval)
    (orders : list Order.t) :
  upper_on_ascii ->
  response_rows resp = Ok rows ->
  sync_open_orders_cycle float_of_str str_upper (Ok resp) = Ok orders ->
  List.length orders = List.length rows
  /\ Forall2 order_symbol_and_type rows orders.
Proof.
  unfold sync_open_orders_cycle. intros Hup. cbn [bind]. intros ->. cbn [bind].
  destruct (for_each _ rows 0 []) as [os err] eqn:Hloop.
  destruct err as [e|]; [discriminate|]. intros [= ->].
  apply order_rows_ok in Hloop. destruct Hloop as (new & -> & Hnew).
  simpl. split.
  - symmetry. now apply Forall2_same_length in Hnew.
  - eapply Forall2_impl; [|exact Hnew].
    intros item o Ho. apply order_row_fields in Ho.
    destruct Ho as (_ & inst_id & t & Hi & Hn & Ht & Hty).
    exists inst_id, t. rewrite Hty. repeat split; try assumption.
    + apply Hup.
    + intros ->. now rewrite (Hup "limit" eq_refl).
Qed.

Lemma order_rows_pass (rows : list pyval) :
  Forall order_row_passes rows ->
  forall i orders,
    snd (for_each (fun _ item orders =>
                     commit (o <- order_row float_of_str str_upper item ;;
                             Ok (orders ++ [o])%list) orders)
           rows i orders) = None.
Proof.
  induction 1 as [|r rows [o Ho] _ IH]; intros i orders; simpl; [reflexivity|].
  rewrite Ho. simpl. apply IH.
Qed.

Lemma order_rows_raise (rows : list pyval) :
  forall i orders orders' e,
    for_each (fun _ item orders =>
                commit (o <- order_row float_of_str str_upper item ;;
                        Ok (orders ++ [o])%list) orders)
      rows i orders = (orders', Some e) ->
    exists pre item post,
      rows = (pre ++ item :: post)%list
      /\ Forall order_row_passes pre
      /\ order_row float_of_str str_upper item = Raise e.
Proof.
  induction rows as [|r rows IH]; intros i orders orders' e H; simpl in H;
    [discriminate|].
  destruct (order_row float_of_str str_upper r) as [o|e'] eqn:Hr; simpl in H.
  - apply IH in H. destruct H as (pre & item & post & -> & Hpre & Hitem).
    exists (r :: pre), item, post. repeat split; [|assumption].
    constructor; [now exists o | assumption].
  - injection H as <- <-. exists [], r, rows. now repeat split.
Qed.

(** X14: Open Order Sync is all or nothing.  A cycle raises exactly when
    some row does not convert, and the exception is that of the first such
    row; the orders built from the rows before it are then not handed to
    the repository. *)
Theorem orders_all_or_nothing (resp : pyval) (rows : list pyval) (e : exn) :
  response_rows resp = Ok rows ->
  (sync_open_orders_cycle float_of_str str_upper (Ok resp) = Raise e <->
   exists pre item post,
     rows = (pre ++ item :: post)%list
     /\ Forall order_row_passes pre
     /\ order_row float_of_str str_upper item = Raise e).
Proof.
  unfold sync_open_orders_cycle. cbn [bind]. intros ->. cbn [bind]. split.
  - destruct (for_each _ rows 0 []) as [os [e'|]] eqn:Hloop; [|discriminate].
    intros [= ->]. now apply order_rows_raise in Hloop.
  - intros (pre & item & post & -> & Hpre & Hitem).
    pose proof (order_rows_pass pre Hpre 0 []) as Hp.
    destruct (for_each _ pre 0 []) as [os err] eqn:Hloop.
    simpl in Hp. subst err.
    rewrite (for_each_commit_raise
               (fun _ item orders =>
                  o <- order_row float_of_str str_upper item ;; Ok (orders ++ [o])%list)
               pre post item 0 _ os e Hloop); [reflexivity|].
    now rewrite Hitem.
Qed.

(** ** Tick Sync, further *)

Lemma fetch_tick_fields (get_tickers : pyval -> result pyval) (now : Z)
    (sym : pyval) (tick : Tick.t) :
  fetch_tick float_of_str int_of_str get_tickers now sym = Ok (Some tick) ->
  normalizes_to sym (Tick.symbol tick)
  /\ contains_hyphen (Tick.symbol tick) = false
  /\ exists ticker tick_data,
       get_tickers sym = Ok ticker
       /\ first_ticker_row ticker = Ok tick_data
       /\ (ts <- py_get tick_data "ts" (PInt now) ;; py_int int_of_str ts)
          = Ok (Tick.timestamp tick).
Proof.
  unfold fetch_tick, first_ticker_row. intros H.
  destruct (get_tickers sym) as [ticker|]; cbn [bind] in H; [|discriminate].
  destruct (has_rows ticker) as [[|]|]; cbn [bind] in H; try discriminate.
  destruct (py_getitem ticker "data") as [rows|] eqn:Hrows; cbn [bind] in H;
    [|discriminate].
  destruct (py_first rows) as [tick_data|] eqn:Hfirst; cbn [bind] in H;
    [|discriminate].
  destruct (py_remove_hyphens sym) as [symbol|] eqn:Hsym; cbn [bind] in H;
    [|discriminate].
  destruct (py_get tick_data "last" (PInt 0)) as [l|]; cbn [bind] in H;
    [|discriminate].
  destruct (py_float float_of_str l) as [price|]; cbn [bind] in H;
    [|discriminate].
  destruct (py_get tick_data "lastSize" (PInt 0)) as [ls|]; cbn [bind] in H;
    [|discriminate].
  destruct (py_float float_of_str ls) as [qty|]; cbn [bind] in H;
    [|discriminate].
  destruct (py_get tick_data "ts" (PInt now)) as [ts|] eqn:Hts; cbn [bind] in H;
    [|discriminate].
  destruct (py_int int_of_str ts) as [timestamp|] eqn:Hint; cbn [bind] in H;
    [|discriminate].
  injection H as <-. simpl.
  apply py_remove_hyphens_ok in Hsym. destruct Hsym as [Hn Hc].
  repeat split; try assumption.
  exists ticker, tick_data. split; [reflexivity|]. split.
  - now rewrite Hrows.
  - now rewrite Hts.
Qed.



(** X16: every tick a cycle emits carries the symbol of one of the symbols
    fetched, a string, with its hyphens removed; no emitted tick has a
    hyphen in its symbol, and a symbol that is not a string yields none. *)
Theorem tick_symbols_normalized (self : BlofinFutures) (symbol : string)
    (get_tickers : pyval -> result pyval) (clock : nat -> Z)
    (syms : list pyval) (ticks : list Tick.t) :
  symbols_to_fetch list_of_set self symbol = Ok syms ->
  sync_current_price_cycle float_of_str int_of_str list_of_set self symbol
    get_tickers clock = Ok ticks ->
  forall tick,
    In tick ticks ->
    contains_hyphen (Tick.symbol tick) = false
    /\ exists sym, In sym syms /\ normalizes_to sym (Tick.symbol tick).
Proof.
  unfold sync_current_price_cycle. intros ->. cbn [bind].
  destruct (for_each _ syms 0 []) as [ts err] eqn:Hloop.
  apply tick_passes in Hloop. destruct Hloop as (-> & Hticks).
  intros [= <-] tick Hin.
  apply Hticks in Hin. destruct Hin as [[] | (k & sym & Hk & Hf)].
  apply fetch_tick_fields in Hf. destruct Hf as (Hn & Hc & _).
  split; [exact Hc|]. exists sym. split; [|exact Hn].
  eapply nth_error_In; eassumption.
Qed.

(** X17: a tick loop always fetches its own symbol.  Provided listing a
    set keeps exactly its members, and the active symbols are hashable,
    a cycle of the loop for [symbol] whose ticker request for that symbol's
    exchange form succeeds emits a tick whose symbol is [symbol] without
    hyphens -- whatever the other symbols' requests do. *)
Theorem tick_own_symbol (self : BlofinFutures) (symbol : string)
    (get_tickers : pyval -> result pyval) (clock : nat -> Z) :
  (forall l x, In x (list_of_set l) <-> In x l) ->
  forallb hashable (activesymbols self) = true ->
  (forall now, exists tick,
      fetch_tick float_of_str int_of_str get_tickers now
        (PStr (_to_blofin_symbol symbol)) = Ok (Some tick)) ->
  exists ticks tick,
    sync_current_price_cycle float_of_str int_of_str list_of_set self symbol
      get_tickers clock = Ok ticks
    /\ In tick ticks
    /\ Tick.symbol tick = remove_hyphens symbol.
Proof.
  intros Hset Hhash Hfetch.
  unfold sync_current_price_cycle, symbols_to_fetch.
  rewrite forallb_app, Hhash. cbn [forallb hashable andb bind].
  set (syms := list_of_set _).
  assert (Hown : In (PStr (_to_blofin_symbol symbol)) syms).
  { apply Hset, in_or_app. right. now left. }
  apply In_nth_error in Hown. destruct Hown as (k & Hk).
  destruct (Hfetch (clock k)) as (tick & Htick).
  destruct (for_each _ syms 0 []) as [ts err] eqn:Hloop.
  apply tick_passes in Hloop. destruct Hloop as (-> & Hticks).
  exists ts, tick. split; [reflexivity|]. split.
  - apply Hticks. right. now exists k, (PStr (_to_blofin_symbol symbol)).
  - apply fetch_tick_fields in Htick.
    destruct Htick as ((s & [= <-] & ->) & _).
    apply to_blofin_keeps_internal_form_aux.
Qed.

(** X18: the timestamp of a tick is read off the first row of the ticker
    answer: the row's 'ts' when it has one that is an integer, and the
    clock's reading of that pass when the row has no 'ts'. *)
Theorem tick_timestamp_default (get_tickers : pyval -> result pyval) (now : Z)
    (sym : pyval) (tick : Tick.t) :
  fetch_tick float_of_str int_of_str get_tickers now sym = Ok (Some tick) ->
  exists ticker d,
    get_tickers sym = Ok ticker
    /\ first_ticker_row ticker = Ok (PDict d)
    /\ (lookup "ts" d = None -> Tick.timestamp tick = now)
    /\ (forall z, lookup "ts" d = Some (PInt z) -> Tick.timestamp tick = z).
Proof.
  intros H. apply fetch_tick_fields in H.
  destruct H as (_ & _ & ticker & tick_data & Hg & Hrow & Hts).
  destruct tick_data; try discriminate.
  exists ticker, d. split; [exact Hg|]. split; [exact Hrow|].
  cbn [py_get bind] in Hts. unfold dict_get in Hts. split.
  - intros Hnone. rewrite Hnone in Hts. simpl in Hts. congruence.
  - intros z Hz. rewrite Hz in Hts. simpl in Hts. congruence.
Qed.

(** ** Trade / Income History Sync, further *)

Lemma cursor_step_truthy (cursor trade : pyval) :
  truthy cursor = true -> truthy (cursor_step cursor trade) = true.
Proof.
  intros Hc. unfold cursor_step, advances.
  destruct (is_filled trade); simpl; [|assumption].
  destruct (py_get trade "orderId" PNone) as [order_id|]; [|assumption].
  now destruct (truthy order_id) eqn:Ht.
Qed.

Lemma sync_trades_cycle_truthy (last_synced_id : pyval)
    (get_order_history : list (string * pyval) -> result pyval)
    (clock : nat -> Z) :
  truthy last_synced_id = true ->
  truthy (fst (sync_trades_cycle float_of_str int_of_str last_synced_id
                 get_order_history clock)) = true.
Proof.
  intros Hc. unfold sync_trades_cycle.
  destruct (bind (get_order_history _) _) as [[rows|]|e]; try assumption.
  unfold sync_trades_page.
  assert (Hbody : forall i r (s : list Income.t * pyval),
             truthy (snd s) = true ->
             truthy (snd (fst (commit (trade_row float_of_str int_of_str
                                         (clock i) r s) s))) = true).
  { intros i r [inc0 cur0] Hs.
    destruct (trade_row float_of_str int_of_str (clock i) r (inc0, cur0))
      as [[inc1 cur1]|] eqn:Heq; simpl; [|exact Hs].
    apply trade_row_ok in Heq. destruct Heq as [-> _].
    now apply cursor_step_truthy. }
  pose proof (for_each_invariant
                (fun s : list Income.t * pyval => truthy (snd s) = true)
                (fun i trade s =>
                   commit (trade_row float_of_str int_of_str (clock i) trade s) s)
                Hbody rows 0 ([], last_synced_id) Hc) as Hinv.
  simpl in Hinv.
  now destruct (for_each _ rows 0 ([], last_synced_id)) as [[inc cur] [e|]].
Qed.

(** X19: once the cursor is set it stays set.  Over any number of cycles of
    the loop, with whatever answers and failures of the exchange, a cursor
    that holds an order id at the start holds one at the end, and every
    request made on the way carries an 'after' parameter that is set. *)
Theorem cursor_stays_set
    (cycles : list ((list (string * pyval) -> result pyval) * (nat -> Z))) :
  forall last_synced_id,
    truthy last_synced_id = true ->
    truthy (fst (sync_trades_loop float_of_str int_of_str cycles last_synced_id))
    = true
    /\ Forall (fun entry => asks_after (fst entry))
         (snd (sync_trades_loop float_of_str int_of_str cycles last_synced_id)).
Proof.
  induction cycles as [|[goh clock] cycles IH]; intros cur Hc; simpl.
  - split; [assumption | constructor].
  - pose proof (sync_trades_cycle_truthy cur goh clock Hc) as Hnext.
    destruct (sync_trades_cycle float_of_str int_of_str cur goh clock)
      as [cursor outcome].
    simpl in Hnext. destruct (IH cursor Hnext) as [Hfinal Hlog].
    destruct (sync_trades_loop float_of_str int_of_str cycles cursor)
      as [final log].
    simpl in *. split; [assumption|]. constructor; [|assumption].
    simpl. exists cur. unfold order_history_params. rewrite Hc. now simpl.
Qed.

(** X20: a page that fails half way moves the cursor and emits nothing.
    When the rows before a row pass and that row raises, the cycle raises,
    no income of the page is handed to the repository, and the cursor is
    left where the rows before the failure moved it. *)
Theorem trades_failure_keeps_cursor_advance (last_synced_id : pyval)
    (get_order_history : list (string * pyval) -> result pyval)
    (clock : nat -> Z) (resp : pyval) (pre post : list pyval) (bad : pyval)
    (incomes : list Income.t) (cursor : pyval) (e : exn) :
  get_order_history (order_history_params last_synced_id) = Ok resp ->
  has_data resp = Ok true ->
  data_rows resp = Ok (pre ++ bad :: post)%list ->
  sync_trades_page float_of_str int_of_str clock pre last_synced_id
  = ((incomes, cursor), None) ->
  trade_row float_of_str int_of_str (clock (List.length pre)) bad
    (incomes, cursor) = Raise e ->
  sync_trades_cycle float_of_str int_of_str last_synced_id get_order_history
    clock = (cursor, Raise e)
  /\ cursor_is_last_advancing pre last_synced_id cursor.
Proof.
  unfold sync_trades_cycle, sync_trades_page.
  intros -> . cbn [bind]. intros -> . cbn [bind]. intros -> . cbn [bind].
  intros Hpre Hbad. split.
  - rewrite (for_each_commit_raise
               (fun i trade s =>
                  trade_row float_of_str int_of_str (clock i) trade s)
               pre post bad 0 _ (incomes, cursor) e Hpre Hbad).
    reflexivity.
  - apply trade_rows_ok in Hpre. destruct Hpre as (-> & _). split.
    + intros pre' trade post' -> Hadv Hpost. now apply cursor_fold_last.
    + intros Hnone. now apply cursor_fold_stays.
Qed.

(** X21: the repository is never handed an empty list of incomes: a cycle
    that has none to report makes no call. *)
Theorem trades_never_empty_list (last_synced_id : pyval)
    (get_order_history : list (string * pyval) -> result pyval)
    (clock : nat -> Z) :
  snd (sync_trades_cycle float_of_str int_of_str last_synced_id
         get_order_history clock) <> Ok (Some []).
Proof.
  unfold sync_trades_cycle.
  destruct (bind (get_order_history _) _) as [[rows|]|e]; try discriminate.
  destruct (sync_trades_page _ _ _ rows last_synced_id) as [[inc cur] [e|]];
    [discriminate|].
  now destruct inc.
Qed.

Lemma trade_row_record (now : Z) (trade : pyval) (inc0 inc1 : list Income.t)
    (cur0 cur1 : pyval) :
  trade_row float_of_str int_of_str now trade (inc0, cur0) = Ok (inc1, cur1) ->
  if yields_income trade
  then exists inc, inc1 = (inc0 ++ [inc])%list /\ income_record_of trade inc
  else inc1 = inc0.
Proof.
  unfold trade_row, yields_income, income_record_of, is_filled, row_pnl.
  destruct trade; try discriminate. cbn [py_get bind fst snd].
  destruct (py_eq_str (dict_get d "state" (PStr "")) "filled");
    cbn [negb andb]; [|now intros [= <- <-]].
  destruct (py_float float_of_str (dict_get d "pnl" (PInt 0))) as [pnl|];
    cbn [bind]; [|discriminate].
  destruct (py_float float_of_str (dict_get d "fee" (PInt 0))) as [fee|];
    cbn [bind]; [|discriminate].
  destruct (pnl =? 0)%float; cbn [negb bind].
  - now intros [= <- <-].
  - destruct (py_remove_hyphens (dict_get d "instId" (PStr ""))) as [sym|] eqn:Hs;
      cbn [bind]; [|discriminate].
    destruct (py_int int_of_str (dict_get d "updateTime" (PInt now))) as [ts|];
      cbn [bind]; [|discriminate].
    intros [= <- <-]. eexists. split; [reflexivity|].
    exists (dict_get d "instId" (PStr "")). simpl.
    split; [reflexivity|]. split; [|reflexivity].
    now apply py_remove_hyphens_ok in Hs.
Qed.

Lemma trade_rows_record (clock : nat -> Z) (rows : list pyval) :
  forall i inc0 cur0 inc cur,
    for_each (fun i trade s =>
                commit (trade_row float_of_str int_of_str (clock i) trade s) s)
      rows i (inc0, cur0) = ((inc, cur), None) ->
    exists new, inc = (inc0 ++ new)%list
                /\ Forall2 income_record_of (filter yields_income rows) new.
Proof.
  induction rows as [|r rows IH]; intros i inc0 cur0 inc cur H; simpl in H.
  - inversion H; subst. exists []. rewrite app_nil_r.
    split; [reflexivity | constructor].
  - destruct (trade_row float_of_str int_of_str (clock i) r (inc0, cur0))
      as [[inc1 cur1]|e] eqn:Hr; simpl in H; [|discriminate].
    apply trade_row_record in Hr.
    apply IH in H. destruct H as (new & -> & Hnew).
    simpl filter. destruct (yields_income r).
    + destruct Hr as (x & -> & Hx). exists (x :: new).
      rewrite <- app_assoc. split; [reflexivity | now constructor].
    + subst inc1. now exists new.
Qed.

(** X22: each income handed to the repository carries the symbol of its
    row's instrument id, a string, without hyphens, and as transaction id
    the row's order id, the empty string when the row has none. *)
Theorem income_record_fields (last_synced_id : pyval)
    (get_order_history : list (string * pyval) -> result pyval)
    (clock : nat -> Z) (resp : pyval) (rows : list pyval) (cursor : pyval)
    (out : option (list Income.t)) :
  get_order_history (order_history_params last_synced_id) = Ok resp ->
  has_data resp = Ok true ->
  data_rows resp = Ok rows ->
  sync_trades_cycle float_of_str int_of_str last_synced_id get_order_history clock
  = (cursor, Ok out) ->
  Forall2 income_record_of (filter yields_income rows) (incomes_given out).
Proof.
  unfold sync_trades_cycle, sync_trades_page. intros -> . cbn [bind].
  intros -> . cbn [bind]. intros -> . cbn [bind].
  destruct (for_each _ rows 0 ([], last_synced_id)) as [[inc cur] err] eqn:Hloop.
  destruct err as [e|]; [discriminate|]. intros [= <- <-].
  apply trade_rows_record in Hloop. destruct Hloop as (new & -> & Hnew).
  simpl. now destruct new.
Qed.

(** ** Answers without data *)

(** X23: what each loop does with an answer that is falsy or has no 'data':
    Position Sync and Open Order Sync hand the repository an empty list,
    replacing what it held, and Position Sync leaves only the fixed active
    symbol; Balance Sync and Trade Sync make no call, and the cursor stays
    where it was.  None of them raises. *)
Theorem answer_without_data (resp : pyval) (self : BlofinFutures)
    (get_positions : result pyval) (last_synced_id : pyval) (clock : nat -> Z) :
  has_data resp = Ok false ->
  sync_positions_cycle float_of_str self (Ok resp)
  = ({| symbols := symbols self; activesymbols := [PStr "BTC-USDT"] |}, Ok [])
  /\ sync_open_orders_cycle float_of_str str_upper (Ok resp) = Ok []
  /\ sync_account_cycle float_of_str (Ok resp) get_positions = Ok None
  /\ sync_trades_cycle float_of_str int_of_str last_synced_id
       (fun _ => Ok resp) clock = (last_synced_id, Ok None).
Proof.
  intros Hd.
  unfold sync_positions_cycle, sync_open_orders_cycle, sync_account_cycle,
    sync_trades_cycle, response_rows.
  cbn [bind]. rewrite Hd. now cbn.
Qed.

End Properties.

(** * Concrete runs *)

(** ** Symbol normalizer *)

Lemma symbol_round_trip_witness :
  _to_blofin_symbol (remove_hyphens "BTC-USDT") = "BTC-USDT"
  /\ remove_hyphens (_to_blofin_symbol "BTCUSDT") = "BTCUSDT".
Proof.
  apply (symbol_round_trip "BTC" "USDT"); [left; reflexivity | reflexivity].
Defined.

(** C3 as stated fails when BASE itself holds a hyphen: the hyphens of BASE
    are removed too and are not put back. *)
Lemma symbol_round_trip_hyphen_in_base :
  "A-B-USDT" = "A-B" ++ "-" ++ "USDT"
  /\ _to_blofin_symbol (remove_hyphens "A-B-USDT") = "AB-USDT"
  /\ _to_blofin_symbol (remove_hyphens "A-B-USDT") <> "A-B-USDT".
Proof. repeat split. vm_compute. discriminate. Qed.

(** ** Position Sync *)

Lemma active_symbols_after_cycle_witness :
  exists ids,
    activesymbols
      (fst (sync_positions_cycle no_float sample_self (Ok sample_positions)))
    = PStr "BTC-USDT" :: ids
    /\ Forall2 inst_id_of (filter (nonzero_size no_float) sample_position_rows) ids.
Proof.
  eapply (proj2 (proj2 (active_symbols_after_cycle no_float sample_self
                          (Ok sample_positions))));
    reflexivity.
Defined.

(** C2 as stated fails: a synchronizer configured for ETHUSDT that finds no
    open position is left with the active symbols [["BTC-USDT"]], which is
    not its configured symbol in either format. *)
Lemma active_symbols_not_the_configured :
  symbols sample_self = ["ETHUSDT"]
  /\ activesymbols
       (fst (sync_positions_cycle no_float sample_self (Ok no_positions)))
     = [PStr "BTC-USDT"]
  /\ activesymbols
       (fst (sync_positions_cycle no_float sample_self (Ok no_positions)))
     <> map PStr (symbols sample_self)
  /\ activesymbols
       (fst (sync_positions_cycle no_float sample_self (Ok no_positions)))
     <> map (fun s => PStr (_to_blofin_symbol s)) (symbols sample_self).
Proof. repeat split; vm_compute; discriminate. Qed.


Lemma position_size_magnitude_witness :
  exists positions,
    snd (sync_positions_cycle no_float sample_self (Ok sample_positions))
    = Ok positions
    /\ map Position.position_size positions = [0.5; 3; 40]%float
    /\ Forall2 (size_is_magnitude no_float)
         (filter (nonzero_size no_float) sample_position_rows) positions.
Proof.
  eexists. split; [reflexivity|]. split; [reflexivity|].
  apply (position_size_magnitude no_float sample_self sample_positions);
    reflexivity.
Defined.

(** C8 as stated fails on a quantity that is NaN: it differs from zero, so
    the record is built, and its size, NaN, is neither positive nor
    non-negative. *)
Lemma nan_quantity_position :
  snd (sync_positions_cycle no_float sample_self (Ok nan_positions))
  = Ok [Position.mk "BTCUSDT" 0 nan "SHORT" 0 0 0]
  /\ (0 <? Position.position_size (Position.mk "BTCUSDT" 0 nan "SHORT" 0 0 0))%float
     = false
  /\ (0 <=? Position.position_size (Position.mk "BTCUSDT" 0 nan "SHORT" 0 0 0))%float
     = false.
Proof. repeat split. Qed.

(** ** Balance Sync *)

Lemma balance_partition_witness :
  sync_account_cycle no_float (Ok scenario_account) (Ok upnl_positions)
  = Ok (Some scenario_balance)
  /\ Forall2 (asset_balance_of no_float)
       (filter is_asset_row
          [PDict [("currency", PStr "USDT"); ("balance", PFloat 100)];
           PDict [("currency", PStr "BTC"); ("balance", PFloat 0.002)]])
       (Balance.assets scenario_balance).
Proof.
  assert (H : sync_account_cycle no_float (Ok scenario_account) (Ok upnl_positions)
              = Ok (Some scenario_balance))
    by (apply (proj2 (balance_partition no_float (Ok upnl_positions)));
        reflexivity).
  split; [exact H|].
  apply (proj1 (balance_partition no_float (Ok upnl_positions))
           scenario_account _ scenario_balance eq_refl eq_refl H).
Defined.

Lemma missing_currency_is_quote_witness :
  exists balance,
    sync_account_cycle no_float (Ok mixed_account) (Raise GatewayError)
    = Ok (Some balance)
    /\ Balance.totalBalance balance = 50%float
    /\ map AssetBalance.asset (Balance.assets balance) = [PStr "BTC"]
    /\ Forall2 other_currency_entry
         (filter has_other_currency mixed_account_rows) (Balance.assets balance)
    /\ match find counts_as_quote (rev mixed_account_rows) with
       | Some asset => row_balance no_float asset = Ok (Balance.totalBalance balance)
       | None => Balance.totalBalance balance = 0%float
       end.
Proof.
  eexists. split; [reflexivity|]. split; [reflexivity|]. split; [reflexivity|].
  apply (missing_currency_is_quote no_float mixed_account mixed_account_rows
           (Raise GatewayError));
    reflexivity.
Defined.

(** ** Open Order Sync *)

Lemma order_side_uppercased_witness :
  exists orders,
    sync_open_orders_cycle no_float ascii_upper (Ok sample_orders) = Ok orders
    /\ map Order.side orders = ["BUY"; "SELL"]
    /\ Forall2 (side_uppercased ascii_upper) sample_order_rows orders.
Proof.
  eexists. split; [reflexivity|]. split; [reflexivity|].
  apply (order_side_uppercased no_float ascii_upper sample_orders);
    [intros s _ | |]; reflexivity.
Defined.

(** C5 as stated fails on a row whose side is neither buy nor sell: the
    order is emitted with that side uppercased. *)
Lemma order_side_not_buy_or_sell :
  sync_open_orders_cycle no_float ascii_upper (Ok odd_side_orders)
  = Ok [Order.mk "BTCUSDT" 50000 1 "HOLD" "SHORT" "LIMIT"]
  /\ Order.side (Order.mk "BTCUSDT" 50000 1 "HOLD" "SHORT" "LIMIT") <> "BUY"
  /\ Order.side (Order.mk "BTCUSDT" 50000 1 "HOLD" "SHORT" "LIMIT") <> "SELL".
Proof. repeat split; discriminate. Qed.

(** ** Trade / Income History Sync *)

Lemma cursor_after_page_witness :
  sync_trades_cycle no_float no_int PNone (fun _ => Ok sample_page) sample_clock
  = (PStr "1005",
     Ok (Some [Income.mk "BTCUSDT" "USDT" "REALIZED_PNL" 12 1700000000000
                 (PStr "1009")]))
  /\ cursor_is_last_advancing sample_page_rows PNone (PStr "1005").
Proof.
  split; [reflexivity|].
  apply (cursor_after_page no_float no_int PNone (fun _ => Ok sample_page)
           sample_clock sample_page sample_page_rows (PStr "1005")
           (Some [Income.mk "BTCUSDT" "USDT" "REALIZED_PNL" 12 1700000000000
                    (PStr "1009")]));
    reflexivity.
Defined.

(** C1 as stated fails on a page that lists the newest order first: the
    cursor is left at the order id of the last filled row, 1005, while the
    page shows the greater order id 1009. *)
Lemma cursor_not_the_maximum :
  fst (sync_trades_cycle no_float no_int PNone (fun _ => Ok sample_page)
         sample_clock)
  = PStr "1005"
  /\ ~ is_maximum (PStr "1005") (page_order_ids sample_page_rows).
Proof.
  split; [reflexivity|].
  intros [_ H]. specialize (H (PStr "1009") (or_introl eq_refl)).
  discriminate H.
Qed.

Lemma income_per_filled_row_witness :
  exists cursor out,
    sync_trades_cycle no_float no_int PNone (fun _ => Ok sample_page) sample_clock
    = (cursor, Ok out)
    /\ map Income.income (incomes_given out) = [12%float]
    /\ Forall2 (income_of no_float)
         (filter (yields_income no_float) sample_page_rows) (incomes_given out).
Proof.
  do 2 eexists. split; [reflexivity|]. split; [reflexivity|].
  apply (income_per_filled_row no_float no_int PNone (fun _ => Ok sample_page)
           sample_clock sample_page sample_page_rows (PStr "1005"));
    reflexivity.
Defined.

(** ** Tick Sync *)

(** The scenario of the specification: of three symbols, ETH-USDT cannot be
    fetched; the ticks of the other two are emitted. *)
Lemma tick_failure_isolated_witness :
  sample_tickers (PStr "ETH-USDT") = Raise GatewayError
  /\ exists ticks,
       sync_current_price_cycle no_float no_int in_given_order three_symbols
         "BTCUSDT" sample_tickers sample_clock = Ok ticks
       /\ map Tick.symbol ticks = ["SOLUSDT"; "BTCUSDT"]
       /\ forall tick,
            In tick ticks <->
            exists k,
              tick_from no_float no_int sample_tickers sample_clock
                [PStr "ETH-USDT"; PStr "SOL-USDT"; PStr "BTC-USDT"] k tick.
Proof.
  split; [reflexivity|].
  destruct (tick_failure_isolated no_float no_int in_given_order three_symbols
              "BTCUSDT" sample_tickers sample_clock
              [PStr "ETH-USDT"; PStr "SOL-USDT"; PStr "BTC-USDT"] eq_refl)
    as (ticks & Hcycle & Hticks).
  exists ticks. split; [exact Hcycle|]. split; [|exact Hticks].
  vm_compute in Hcycle. injection Hcycle as <-. reflexivity.
Defined.

(** * Concrete runs of the further properties *)

(** ** Balance Sync *)

Lemma balance_survives_positions_failure_witness :
  sync_account_cycle no_float (Ok scenario_account) (Raise GatewayError)
  = Ok (Some (Balance.mk 100 0 [AssetBalance.mk (PStr "BTC") 0.002 0]))
  /\ Balance.totalUnrealizedProfit
       (Balance.mk 100 0 [AssetBalance.mk (PStr "BTC") 0.002 0]) = 0%float.
Proof.
  split; [reflexivity|].
  apply (proj2 (balance_survives_positions_failure no_float
                  (Ok scenario_account) (Ok upnl_positions)) GatewayError).
  reflexivity.
Defined.

Lemma upnl_sum_stops_at_bad_row_witness :
  positions_upnl no_float
    (Ok (answer (upnl_rows_before ++ upnl_bad_row :: upnl_rows_after))) 0
  = positions_upnl no_float (Ok (answer upnl_rows_before)) 0
  /\ positions_upnl no_float (Ok (answer upnl_rows_before)) 0 = 2%float.
Proof.
  split; [|reflexivity].
  apply (upnl_sum_stops_at_bad_row no_float _ _ upnl_rows_before upnl_rows_after
           upnl_bad_row TypeError);
    reflexivity.
Defined.

Lemma balance_rows_accounted_witness :
  exists balance,
    sync_account_cycle no_float (Ok mixed_account) (Raise GatewayError)
    = Ok (Some balance)
    /\ List.length (filter is_quote_row mixed_account_rows)
       + List.length (Balance.assets balance)
       = List.length mixed_account_rows.
Proof.
  eexists. split; [reflexivity|].
  apply (balance_rows_accounted no_float mixed_account mixed_account_rows
           (Raise GatewayError));
    reflexivity.
Defined.

Lemma balance_fails_on_unused_available_witness :
  sync_account_cycle no_float
    (Ok (answer ([usdt_row] ++ [PDict bad_available]))) (Ok upnl_positions)
  = Raise TypeError.
Proof.
  apply (balance_fails_on_unused_available no_float _ [usdt_row] []
           bad_available 0.002%float TypeError);
    reflexivity.
Defined.

(** ** Position Sync *)

Lemma active_symbols_match_positions_witness :
  exists ids positions,
    snd (sync_positions_cycle no_float sample_self (Ok sample_positions))
    = Ok positions
    /\ activesymbols
         (fst (sync_positions_cycle no_float sample_self (Ok sample_positions)))
       = PStr "BTC-USDT" :: ids
    /\ Forall2 (fun id p => normalizes_to id (Position.symbol p)) ids positions
    /\ Forall (fun p => contains_hyphen (Position.symbol p) = false) positions.
Proof.
  destruct (active_symbols_match_positions no_float sample_self sample_positions
              sample_position_rows _ eq_refl eq_refl) as (ids & Ha & H).
  exists ids. eexists. split; [reflexivity|]. split; [exact Ha | exact H].
Defined.

Lemma positions_failure_partial_update_witness :
  snd (sync_positions_cycle no_float sample_self
         (Ok (answer ([btc_position_row] ++ [bad_price_row]))))
  = Raise TypeError
  /\ activesymbols
       (fst (sync_positions_cycle no_float sample_self
               (Ok (answer ([btc_position_row] ++ [bad_price_row])))))
     = [PStr "BTC-USDT"; PStr "BTC-USDT"; PStr "ETH-USDT"].
Proof.
  apply (positions_failure_partial_update no_float sample_self _
           [btc_position_row] [] bad_price_row (PStr "ETH-USDT") 2%float
           TypeError [PStr "BTC-USDT"; PStr "BTC-USDT"]
           [Position.mk "BTCUSDT" 0 0.5 "LONG" 0 0 0]);
    reflexivity.
Defined.

Lemma unhashable_inst_id_stops_ticks_witness :
  sync_current_price_cycle no_float no_int in_given_order
    (fst (sync_positions_cycle no_float sample_self
            (Ok (answer ([btc_position_row] ++ [list_id_row])))))
    "BTCUSDT" sample_tickers sample_clock
  = Raise TypeError.
Proof.
  apply (unhashable_inst_id_stops_ticks no_float no_int in_given_order
           sample_self _ [btc_position_row] [] list_id_row
           (PList [PStr "ETH-USDT"]));
    reflexivity.
Defined.

(** ** Open Order Sync *)

Lemma order_position_side_witness :
  exists orders,
    sync_open_orders_cycle no_float ascii_upper (Ok sample_orders) = Ok orders
    /\ map Order.position_side orders = ["LONG"; "LONG"]
    /\ Forall2 order_position_side_resolved sample_order_rows orders.
Proof.
  eexists. split; [reflexivity|]. split; [reflexivity|].
  apply (order_position_side no_float ascii_upper sample_orders); reflexivity.
Defined.

Lemma order_per_row_witness :
  exists orders,
    sync_open_orders_cycle no_float ascii_upper (Ok sample_orders) = Ok orders
    /\ List.length orders = List.length sample_order_rows
    /\ Forall2 (order_symbol_and_type ascii_upper) sample_order_rows orders.
Proof.
  eexists. split; [reflexivity|].
  apply (order_per_row no_float ascii_upper sample_orders);
    [intros s _ | |]; reflexivity.
Defined.

Lemma orders_all_or_nothing_witness :
  sync_open_orders_cycle no_float ascii_upper
    (Ok (answer (sample_order_rows ++ bad_side_row :: sample_order_rows)))
  = Raise AttributeError.
Proof.
  apply (orders_all_or_nothing no_float ascii_upper
           (answer (sample_order_rows ++ bad_side_row :: sample_order_rows))
           (sample_order_rows ++ bad_side_row :: sample_order_rows)
           AttributeError eq_refl).
  exists sample_order_rows, bad_side_row, sample_order_rows.
  split; [reflexivity|]. split; [|reflexivity].
  repeat constructor; eexists; reflexivity.
Defined.

(** ** Tick Sync *)


Lemma tick_symbols_normalized_witness :
  contains_hyphen (Tick.symbol (Tick.mk "SOLUSDT" 150 4 1700000000001)) = false
  /\ exists sym,
       In sym [PStr "ETH-USDT"; PStr "SOL-USDT"; PStr "BTC-USDT"]
       /\ normalizes_to sym
            (Tick.symbol (Tick.mk "SOLUSDT" 150 4 1700000000001)).
Proof.
  apply (tick_symbols_normalized no_float no_int in_given_order three_symbols
           "BTCUSDT" sample_tickers sample_clock
           [PStr "ETH-USDT"; PStr "SOL-USDT"; PStr "BTC-USDT"]
           [Tick.mk "SOLUSDT" 150 4 1700000000001;
            Tick.mk "BTCUSDT" 50100 0.5 1700000000500]
           eq_refl eq_refl).
  now left.
Defined.

Lemma tick_own_symbol_witness :
  exists ticks tick,
    sync_current_price_cycle no_float no_int in_given_order three_symbols
      "BTCUSDT" sample_tickers sample_clock = Ok ticks
    /\ In tick ticks
    /\ Tick.symbol tick = remove_hyphens "BTCUSDT".
Proof.
  apply (tick_own_symbol no_float no_int in_given_order three_symbols "BTCUSDT"
           sample_tickers sample_clock).
  - intros l x. reflexivity.
  - reflexivity.
  - intros now. eexists. reflexivity.
Defined.

Lemma tick_timestamp_default_witness :
  exists ticker d,
    sample_tickers (PStr "SOL-USDT") = Ok ticker
    /\ first_ticker_row ticker = Ok (PDict d)
    /\ (lookup "ts" d = None ->
        Tick.timestamp (Tick.mk "SOLUSDT" 150 4 1700000000001) = 1700000000001%Z)
    /\ (forall z,
           lookup "ts" d = Some (PInt z) ->
           Tick.timestamp (Tick.mk "SOLUSDT" 150 4 1700000000001) = z).
Proof.
  apply (tick_timestamp_default no_float no_int sample_tickers 1700000000001
           (PStr "SOL-USDT") (Tick.mk "SOLUSDT" 150 4 1700000000001)).
  reflexivity.
Defined.

(** ** Trade / Income History Sync *)

Lemma cursor_stays_set_witness :
  truthy
    (fst (sync_trades_loop no_float no_int
            [(fun _ => Ok sample_page, sample_clock);
             (fun _ => Raise GatewayError, sample_clock);
             (fun _ => Ok (answer [bad_pnl_row]), sample_clock)]
            (PStr "1001")))
  = true
  /\ Forall (fun entry => asks_after (fst entry))
       (snd (sync_trades_loop no_float no_int
               [(fun _ => Ok sample_page, sample_clock);
                (fun _ => Raise GatewayError, sample_clock);
                (fun _ => Ok (answer [bad_pnl_row]), sample_clock)]
               (PStr "1001"))).
Proof.
  apply (cursor_stays_set no_float no_int). reflexivity.
Defined.

Lemma trades_failure_keeps_cursor_advance_witness :
  sync_trades_cycle no_float no_int PNone
    (fun _ => Ok (answer ([filled_row] ++ bad_pnl_row :: [filled_row])))
    sample_clock
  = (PStr "1009", Raise TypeError)
  /\ cursor_is_last_advancing [filled_row] PNone (PStr "1009").
Proof.
  apply (trades_failure_keeps_cursor_advance no_float no_int PNone
           (fun _ => Ok (answer ([filled_row] ++ bad_pnl_row :: [filled_row])))
           sample_clock
           (answer ([filled_row] ++ bad_pnl_row :: [filled_row]))
           [filled_row] [filled_row] bad_pnl_row
           [Income.mk "BTCUSDT" "USDT" "REALIZED_PNL" 12 1700000000000
              (PStr "1009")]);
    reflexivity.
Defined.

Lemma income_record_fields_witness :
  exists cursor out,
    sync_trades_cycle no_float no_int PNone (fun _ => Ok sample_page) sample_clock
    = (cursor, Ok out)
    /\ map Income.symbol (incomes_given out) = ["BTCUSDT"]
    /\ Forall2 income_record_of (filter (yields_income no_float) sample_page_rows)
         (incomes_given out).
Proof.
  do 2 eexists. split; [reflexivity|]. split; [reflexivity|].
  apply (income_record_fields no_float no_int PNone (fun _ => Ok sample_page)
           sample_clock sample_page sample_page_rows (PStr "1005"));
    reflexivity.
Defined.

(** ** Answers without data *)

Lemma answer_without_data_witness :
  sync_positions_cycle no_float sample_self (Ok PNone)
  = ({| symbols := ["ETHUSDT"]; activesymbols := [PStr "BTC-USDT"] |}, Ok [])
  /\ sync_open_orders_cycle no_float ascii_upper (Ok PNone) = Ok []
  /\ sync_account_cycle no_float (Ok PNone) (Ok upnl_positions) = Ok None
  /\ sync_trades_cycle no_float no_int (PStr "1005") (fun _ => Ok PNone)
       sample_clock = (PStr "1005", Ok None).
Proof.
  apply (answer_without_data no_float no_int ascii_upper PNone sample_self
           (Ok upnl_positions) (PStr "1005") sample_clock).
  reflexivity.
Defined.
